(** * The Product-based Neural Network model of [src/models/pnn.py]

    The file embeds the two methods of class [PNN], the constructor
    [__init__] and [forward], together with the fragment of Python they rely
    on (membership tests, true division of integers, subscripting) and an
    interface to the code they call but do not contain: torch, deepctr_torch
    and the project's [BaseModel]. *)

From Stdlib Require Import ZArith List String Bool Lia.
Import ListNotations.
Open Scope string_scope.
Open Scope Z_scope.

#[local] Set Warnings "-register-all".

(** ** Python values and builtin operations *)

Module Py.

(** The objects that reach [self.flag]: the constructor forwards its [flag]
    argument, whose default is [None], and [forward] asks whether the string
    'metatrans' is [in] it. *)
Inductive pyobj : Type :=
| PyNone
| PyBool (b : bool)
| PyInt (z : Z)
| PyStr (s : string)
| PyList (l : list pyobj)
| PyTuple (l : list pyobj).

(** [sub in s] on two strings: [sub] occurs in [s]. *)
Definition str_contains (sub s : string) : bool :=
  match String.index 0 sub s with
  | Some _ => true
  | None => false
  end.

(** [x == o] for a string [x]: a string equals only an equal string. *)
Definition str_eq_obj (x : string) (o : pyobj) : bool :=
  match o with
  | PyStr s => String.eqb x s
  | _ => false
  end.

(** [x in l] for a Python list of strings, as in
    [kernel_type not in ['mat', 'vec', 'num']]. *)
Definition str_in_list (x : string) (l : list string) : bool :=
  existsb (String.eqb x) l.

(** Whether [x in o] is defined: [None], booleans and integers support no
    membership test. *)
Definition supports_membership (o : pyobj) : bool :=
  match o with
  | PyStr _ | PyList _ | PyTuple _ => true
  | PyNone | PyBool _ | PyInt _ => false
  end.

(** [x in o] for a string [x]; [None] stands for the TypeError that Python
    raises when [o] is not a container. *)
Definition contains (x : string) (o : pyobj) : option bool :=
  match o with
  | PyStr s => Some (str_contains x s)
  | PyList l | PyTuple l => Some (existsb (str_eq_obj x) l)
  | PyNone | PyBool _ | PyInt _ => None
  end.

(** [l[-1]]: the last element, [None] standing for IndexError on an empty
    sequence. *)
Fixpoint last_item {A : Type} (l : list A) : option A :=
  match l with
  | [] => None
  | [x] => Some x
  | _ :: l' => last_item l'
  end.

(** *** Floating point: [a / b] on integers and [int] on the quotient

    CPython divides two integers exactly and rounds the quotient once, to
    the nearest binary64 value, ties to the even significand.  A finite
    binary64 value is kept as [mant * 2 ^ expo]. *)

Record pyfloat : Type := { mant : Z; expo : Z }.

Definition pow2 (e : Z) : Z := 2 ^ Z.max e 0.

(** Nearest integer to [n / d] for [0 <= n] and [0 < d], ties to even. *)
Definition round_half_even (n d : Z) : Z :=
  let q := n / d in
  let r := n mod d in
  if 2 * r <? d then q
  else if d <? 2 * r then q + 1
  else if Z.even q then q else q + 1.

(** Exponent of the last place of the binary64 values around [a / b], for
    [0 < a] and [0 < b]: 53 significant bits, never below 2^-1074. *)
Definition ulp_exponent (a b : Z) : Z :=
  let d := Z.log2 a - Z.log2 b in
  let k := if b * pow2 d <=? a * pow2 (- d) then d else d - 1 in
  Z.max (k - 52) (-1074).

Inductive div_result : Type :=
| Quotient (x : pyfloat)
| DivOverflow        (* OverflowError: integer division result too large for a float *)
| DivByZero.         (* ZeroDivisionError *)

(** [a / b] for Python integers [a] and [b]. *)
Definition int_truediv (a b : Z) : div_result :=
  if b =? 0 then DivByZero
  else if a =? 0 then Quotient {| mant := 0; expo := 0 |}
  else
    let e := ulp_exponent (Z.abs a) (Z.abs b) in
    let m := round_half_even (Z.abs a * pow2 (- e)) (Z.abs b * pow2 e) in
    if 2 ^ 1024 <=? m * pow2 e then DivOverflow
    else Quotient {| mant := Z.sgn a * Z.sgn b * m; expo := e |}.

(** [int(x)]: truncation towards zero. *)
Definition int_of_float (x : pyfloat) : Z :=
  if 0 <=? expo x then mant x * 2 ^ expo x
  else Z.quot (mant x) (2 ^ (- expo x)).

End Py.

(** ** The code that [pnn.py] calls

    [pnn.py] imports torch, deepctr_torch and the project's own
    [models/basemodel.py].  None of their code is part of the file under
    study: their objects are abstract types and their functions the fields
    of [Library].  A call into them either returns or raises; a call on an
    object that owns state also returns the state it leaves behind. *)

Module Lib.

Class Types : Type := {
  tensor : Type;                 (* torch.Tensor *)
  lib_error : Type;              (* an exception raised inside the called code *)
  scalar : Type;                 (* float hyper-parameters, only passed on *)
  feature_column : Type;         (* SparseFeat, DenseFeat, VarLenSparseFeat *)
  embedding_dict : Type;         (* self.embedding_dict *)
  parameter : Type;              (* nn.Parameter *)
  BaseModel : Type;              (* the attributes owned by the base class *)
  InnerProductLayer : Type;
  OutterProductLayer : Type;
  DNN : Type;
  Linear : Type                  (* nn.Linear *)
}.

End Lib.

Import Lib.

(** The keyword arguments of [BaseModel.__init__] as [PNN.__init__] passes
    them (lines 35-37). *)
Module BaseArgs.
Record t `{Types} : Type := {
  linear_feature_columns : list feature_column;
  dnn_feature_columns : list feature_column;
  l2_reg_linear : Z;
  l2_reg_embedding : scalar;
  init_std : scalar;
  seed : Z;
  task : string;
  device : string;
  gpus : Py.pyobj;
  flag : Py.pyobj;
  domain_column : Py.pyobj;
  num_domains : Py.pyobj;
  meta_dnn_hidden_units : list Z
}.
End BaseArgs.

(** The arguments of [PNN.__init__] (lines 30-33). *)
Module Args.
Record t `{Types} : Type := {
  dnn_feature_columns : list feature_column;
  dnn_hidden_units : list Z;
  l2_reg_embedding : scalar;
  l2_reg_dnn : scalar;
  init_std : scalar;
  seed : Z;
  dnn_dropout : scalar;
  dnn_activation : string;
  use_inner : bool;
  use_outter : bool;
  kernel_type : string;
  task : string;
  device : string;
  gpus : Py.pyobj;
  flag : Py.pyobj;
  domain_column : Py.pyobj;
  num_domains : Py.pyobj;
  meta_dnn_hidden_units : list Z
}.
End Args.

(** A [PNN] instance: what the base class owns, then the attributes that
    [PNN.__init__] assigns.  [innerproduct] and [outterproduct] exist only
    when the constructor ran the matching branch. *)
Record PNN `{Types} : Type := {
  base : BaseModel;
  use_inner : bool;
  use_outter : bool;
  kernel_type : string;
  task : string;
  innerproduct : option InnerProductLayer;
  outterproduct : option OutterProductLayer;
  dnn : DNN;
  dnn_linear : Linear
}.

(** The two forms of weights handed to [add_regularization_weight]: the
    filtered [named_parameters()] (line 67) and one parameter (line 68). *)
Inductive reg_weights `{Types} : Type :=
| NamedParameters (l : list (string * parameter))
| OneParameter (p : parameter).

Class Library `{Types} : Type := {
  (* models/basemodel.py: the base class *)
  BaseModel_init : BaseArgs.t -> lib_error + BaseModel;
  flag : BaseModel -> Py.pyobj;
  dnn_feature_columns : BaseModel -> list feature_column;
  get_embedding_dict : BaseModel -> embedding_dict;
  embedding_size : BaseModel -> lib_error + Z;
  compute_input_dim :
    BaseModel -> list feature_column ->
    forall (include_dense feature_group : bool), lib_error + Z;
  add_regularization_weight :
    BaseModel -> reg_weights -> scalar -> lib_error + BaseModel;
  input_from_feature_columns :
    BaseModel -> tensor -> list feature_column -> embedding_dict ->
    (lib_error + (list tensor * list tensor)) * BaseModel;
  meta_transformation :
    BaseModel -> tensor -> tensor -> (lib_error + tensor) * BaseModel;
  out : BaseModel -> tensor -> (lib_error + tensor) * BaseModel;
  (* deepctr_torch.layers and deepctr_torch.inputs *)
  new_InnerProductLayer : string -> lib_error + InnerProductLayer;
  call_InnerProductLayer :
    InnerProductLayer -> list tensor ->
    (lib_error + tensor) * InnerProductLayer;
  new_OutterProductLayer :
    Z -> Z -> string -> string -> lib_error + OutterProductLayer;
  call_OutterProductLayer :
    OutterProductLayer -> list tensor ->
    (lib_error + tensor) * OutterProductLayer;
  new_DNN :
    Z -> list Z -> string -> scalar -> scalar -> bool -> scalar -> string ->
    lib_error + DNN;
  call_DNN : DNN -> tensor -> (lib_error + tensor) * DNN;
  named_parameters : DNN -> list (string * parameter);
  concat_fun : list tensor -> lib_error + tensor;
  combined_dnn_input : list tensor -> list tensor -> lib_error + tensor;
  (* torch *)
  new_Linear : Z -> Z -> bool -> lib_error + Linear;
  call_Linear : Linear -> tensor -> (lib_error + tensor) * Linear;
  weight : Linear -> parameter;
  Module_to : forall {A : Type}, A -> string -> lib_error + A;
  torch_cat : list tensor -> Z -> lib_error + tensor;
  torch_flatten : tensor -> Z -> lib_error + tensor;
  split : tensor -> Z -> Z -> lib_error + list tensor
}.

(** ** Exceptions and the two monads of the embedding *)

Section Model.
Context {T : Types} {L : Library}.

(** What a call of [__init__] or [forward] can raise: the one [raise] of the
    file, the errors of the Python operations the file itself evaluates, and
    whatever comes out of the called code. *)
Inductive exn : Type :=
| ValueError (msg : string)
| TypeError
| IndexError
| OverflowError
| ZeroDivisionError
| UnboundLocalError (name : string)
| AttributeError (name : string)
| LibraryError (e : lib_error).

(** An exception that the code of [pnn.py] raised, not the code it calls. *)
Definition raised_here (e : exn) : bool :=
  match e with
  | LibraryError _ => false
  | _ => true
  end.

(** The constructor: a result or an exception. *)
Definition E (A : Type) : Type := (exn + A)%type.

Definition retE {A} (a : A) : E A := inr a.

Definition bindE {A B} (c : E A) (k : A -> E B) : E B :=
  match c with
  | inl e => inl e
  | inr a => k a
  end.

Definition lib {A} (r : lib_error + A) : E A :=
  match r with
  | inl e => inl (LibraryError e)
  | inr a => inr a
  end.

(** [forward] runs on the model object [self]: a result or an exception,
    and the object as the call leaves it. *)
Definition M (A : Type) : Type := PNN -> E A * PNN.

Definition ret {A} (a : A) : M A := fun self => (inr a, self).

Definition raise {A} (e : exn) : M A := fun self => (inl e, self).

Definition bind {A B} (c : M A) (k : A -> M B) : M B :=
  fun self =>
    match c self with
    | (inl e, self') => (inl e, self')
    | (inr a, self') => k a self'
    end.

(** Reading an attribute of [self]. *)
Definition attr {A} (f : PNN -> A) : M A := fun self => (inr (f self), self).

(** A call of a torch or deepctr_torch function on tensors. *)
Definition torch {A} (r : lib_error + A) : M A := fun self => (lib r, self).

(** [self] after the base class changed what it owns. *)
Definition set_base (b : BaseModel) (self : PNN) : PNN :=
  {| base := b; use_inner := use_inner self; use_outter := use_outter self;
     kernel_type := kernel_type self; task := task self;
     innerproduct := innerproduct self;
     outterproduct := outterproduct self;
     dnn := dnn self; dnn_linear := dnn_linear self |}.

(** A call of a method inherited from the base class. *)
Definition self_method {A}
  (f : BaseModel -> (lib_error + A) * BaseModel) : M A :=
  fun self =>
    let (r, b) := f (base self) in
    (lib r, set_base b self).

(** [self.innerproduct(inputs)]. *)
Definition self_innerproduct (inputs : list tensor) : M tensor :=
  fun self =>
    match innerproduct self with
    | None => (inl (AttributeError "innerproduct"), self)
    | Some layer =>
        let (r, layer') := call_InnerProductLayer layer inputs in
        (lib r,
         {| base := base self; use_inner := use_inner self;
            use_outter := use_outter self;
            kernel_type := kernel_type self; task := task self;
            innerproduct := Some layer';
            outterproduct := outterproduct self;
            dnn := dnn self; dnn_linear := dnn_linear self |})
    end.

(** [self.outterproduct(inputs)]. *)
Definition self_outterproduct (inputs : list tensor) : M tensor :=
  fun self =>
    match outterproduct self with
    | None => (inl (AttributeError "outterproduct"), self)
    | Some layer =>
        let (r, layer') := call_OutterProductLayer layer inputs in
        (lib r,
         {| base := base self; use_inner := use_inner self;
            use_outter := use_outter self;
            kernel_type := kernel_type self; task := task self;
            innerproduct := innerproduct self;
            outterproduct := Some layer';
            dnn := dnn self; dnn_linear := dnn_linear self |})
    end.

(** [self.dnn(x)]. *)
Definition self_dnn (x : tensor) : M tensor :=
  fun self =>
    let (r, layer') := call_DNN (dnn self) x in
    (lib r,
     {| base := base self; use_inner := use_inner self;
        use_outter := use_outter self;
        kernel_type := kernel_type self; task := task self;
        innerproduct := innerproduct self;
        outterproduct := outterproduct self;
        dnn := layer'; dnn_linear := dnn_linear self |}).

(** [self.dnn_linear(x)]. *)
Definition self_dnn_linear (x : tensor) : M tensor :=
  fun self =>
    let (r, layer') := call_Linear (dnn_linear self) x in
    (lib r,
     {| base := base self; use_inner := use_inner self;
        use_outter := use_outter self;
        kernel_type := kernel_type self; task := task self;
        innerproduct := innerproduct self;
        outterproduct := outterproduct self;
        dnn := dnn self; dnn_linear := layer' |}).

(** ['metatrans' in self.flag]. *)
Definition py_in (x : string) (o : Py.pyobj) : M bool :=
  match Py.contains x o with
  | Some b => ret b
  | None => raise TypeError
  end.

(** Reading a local variable that only one branch assigns. *)
Definition local {A} (name : string) (v : option A) : M A :=
  match v with
  | Some a => ret a
  | None => raise (UnboundLocalError name)
  end.

End Model.

Declare Scope err_scope.
Delimit Scope err_scope with err.
Notation "x <- c ;; k" := (bindE c (fun x => k))
  (at level 61, c at next level, right associativity) : err_scope.
Notation "' p <- c ;; k" := (bindE c (fun x => match x with p => k end))
  (at level 61, p pattern, c at next level, right associativity) : err_scope.

Declare Scope st_scope.
Delimit Scope st_scope with st.
Notation "x <- c ;; k" := (bind c (fun x => k))
  (at level 61, c at next level, right associativity) : st_scope.
Notation "' p <- c ;; k" := (bind c (fun x => match x with p => k end))
  (at level 61, p pattern, c at next level, right associativity) : st_scope.

(** ** class PNN *)

Section PNNCode.
Context {T : Types} {L : Library}.

(** [int(num_inputs * (num_inputs - 1) / 2)] (line 49). *)
Definition num_pairs (num_inputs : Z) : E Z :=
  match Py.int_truediv (num_inputs * (num_inputs - 1)) 2 with
  | Py.Quotient x => retE (Py.int_of_float x)
  | Py.DivOverflow => inl OverflowError
  | Py.DivByZero => inl ZeroDivisionError
  end.

(** The value of [product_out_dim] when line 60 reads it: set to 0 on line
    47, increased on lines 52 and 56. *)
Definition product_out_dim (use_inner use_outter : bool) (num_pairs : Z) : Z :=
  let product_out_dim := 0 in
  let product_out_dim :=
    if use_inner then product_out_dim + num_pairs else product_out_dim in
  let product_out_dim :=
    if use_outter then product_out_dim + num_pairs else product_out_dim in
  product_out_dim.

(** [lambda x: 'weight' in x[0] and 'bn' not in x[0]] (line 67). *)
Definition is_regularized (x : string * parameter) : bool :=
  Py.str_contains "weight" (fst x) && negb (Py.str_contains "bn" (fst x)).

(** [dnn_hidden_units[-1]] (line 65). *)
Definition last_hidden_unit (dnn_hidden_units : list Z) : E Z :=
  match Py.last_item dnn_hidden_units with
  | Some n => retE n
  | None => inl IndexError
  end.

(** The arguments of [super(PNN, self).__init__] (lines 35-37). *)
Definition super_args (a : Args.t) : BaseArgs.t :=
  {| BaseArgs.linear_feature_columns := [];
     BaseArgs.dnn_feature_columns := Args.dnn_feature_columns a;
     BaseArgs.l2_reg_linear := 0;
     BaseArgs.l2_reg_embedding := Args.l2_reg_embedding a;
     BaseArgs.init_std := Args.init_std a;
     BaseArgs.seed := Args.seed a;
     BaseArgs.task := Args.task a;
     BaseArgs.device := Args.device a;
     BaseArgs.gpus := Args.gpus a;
     BaseArgs.flag := Args.flag a;
     BaseArgs.domain_column := Args.domain_column a;
     BaseArgs.num_domains := Args.num_domains a;
     BaseArgs.meta_dnn_hidden_units := Args.meta_dnn_hidden_units a |}.

(** The kernel types that line 39 accepts. *)
Definition kernel_types : list string := ["mat"; "vec"; "num"].

(** [PNN.__init__] up to line 68: [self] as it is before the closing
    [self.to(device)]. *)
Definition init_attributes (a : Args.t) : E PNN :=
  ( b <- lib (BaseModel_init (super_args a)) ;;
    _ <- (if negb (Py.str_in_list (Args.kernel_type a) kernel_types)
          then inl (ValueError "kernel_type must be mat,vec or num")
          else retE tt) ;;
    num_inputs <-
      lib (compute_input_dim b (Args.dnn_feature_columns a) false true) ;;
    num_pairs <- num_pairs num_inputs ;;
    innerproduct <-
      (if Args.use_inner a
       then layer <- lib (new_InnerProductLayer (Args.device a)) ;;
            retE (Some layer)
       else retE None) ;;
    outterproduct <-
      (if Args.use_outter a
       then size <- lib (embedding_size b) ;;
            layer <- lib (new_OutterProductLayer num_inputs size
                            (Args.kernel_type a) (Args.device a)) ;;
            retE (Some layer)
       else retE None) ;;
    input_dim <-
      lib (compute_input_dim b (Args.dnn_feature_columns a) true false) ;;
    dnn <- lib (new_DNN
                  (product_out_dim (Args.use_inner a) (Args.use_outter a)
                     num_pairs + input_dim)
                  (Args.dnn_hidden_units a) (Args.dnn_activation a)
                  (Args.l2_reg_dnn a) (Args.dnn_dropout a) false
                  (Args.init_std a) (Args.device a)) ;;
    units <- last_hidden_unit (Args.dnn_hidden_units a) ;;
    linear <- lib (new_Linear units 1 false) ;;
    dnn_linear <- lib (Module_to linear (Args.device a)) ;;
    b <- lib (add_regularization_weight b
                (NamedParameters (filter is_regularized (named_parameters dnn)))
                (Args.l2_reg_dnn a)) ;;
    b <- lib (add_regularization_weight b (OneParameter (weight dnn_linear))
                (Args.l2_reg_dnn a)) ;;
    retE {| base := b;
            use_inner := Args.use_inner a;
            use_outter := Args.use_outter a;
            kernel_type := Args.kernel_type a;
            task := Args.task a;
            innerproduct := innerproduct;
            outterproduct := outterproduct;
            dnn := dnn;
            dnn_linear := dnn_linear |} )%err.

(** [PNN.__init__] (lines 30-70). *)
Definition __init__ (a : Args.t) : E PNN :=
  ( self <- init_attributes a ;;
    lib (Module_to self (Args.device a)) )%err.

(** [PNN.forward] (lines 72-110). *)
Definition forward (X : tensor) : M tensor :=
  ( columns <- attr (fun self => dnn_feature_columns (base self)) ;;
    dict <- attr (fun self => get_embedding_dict (base self)) ;;
    ' (sparse_embedding_list, dense_value_list) <-
      self_method (fun b => input_from_feature_columns b X columns dict) ;;
    flag <- attr (fun self => flag (base self)) ;;
    metatrans <- py_in "metatrans" flag ;;
    sparse_embedding_list <-
      (if metatrans
       then sparse_input <- torch (torch_cat sparse_embedding_list 1) ;;
            sparse_input <-
              self_method (fun b => meta_transformation b X sparse_input) ;;
            torch (split sparse_input 1 1)
       else ret sparse_embedding_list) ;;
    concatenated <- torch (concat_fun sparse_embedding_list) ;;
    linear_signal <- torch (torch_flatten concatenated 1) ;;
    inner <- attr use_inner ;;
    inner_product <-
      (if inner
       then product <- self_innerproduct sparse_embedding_list ;;
            flat <- torch (torch_flatten product 1) ;;
            ret (Some flat)
       else ret None) ;;
    outter <- attr use_outter ;;
    outer_product <-
      (if outter
       then product <- self_outterproduct sparse_embedding_list ;;
            ret (Some product)
       else ret None) ;;
    outter <- attr use_outter ;;
    both <- (if outter then attr use_inner else ret false) ;;
    product_layer <-
      (if both
       then i <- local "inner_product" inner_product ;;
            o <- local "outer_product" outer_product ;;
            torch (torch_cat [linear_signal; i; o] 1)
       else
         outter <- attr use_outter ;;
         if outter
         then o <- local "outer_product" outer_product ;;
              torch (torch_cat [linear_signal; o] 1)
         else
           inner <- attr use_inner ;;
           if inner
           then i <- local "inner_product" inner_product ;;
                torch (torch_cat [linear_signal; i] 1)
           else ret linear_signal) ;;
    dnn_input <- torch (combined_dnn_input [product_layer] dense_value_list) ;;
    dnn_output <- self_dnn dnn_input ;;
    dnn_logit <- self_dnn_linear dnn_output ;;
    let logit := dnn_logit in
    y_pred <- self_method (fun b => out b logit) ;;
    ret y_pred )%st.

End PNNCode.

(** ** The data flow as the specification words it

    feature columns, embeddings, optional meta-transformation, concatenation
    of linear / inner-product / outer-product signals, dense network, linear
    output, activation, prediction.  These definitions follow that sentence;
    the theorems compare them with [forward]. *)

Inductive signal : Type :=
| LinearSignal
| InnerProductSignal
| OuterProductSignal.

Section PNNSpec.
Context {T : Types} {L : Library}.

(** The signals that the toggles select, in the order of concatenation. *)
Definition selected (use_inner use_outter : bool) : list signal :=
  LinearSignal
    :: (if use_inner then [InnerProductSignal] else [])
    ++ (if use_outter then [OuterProductSignal] else []).

Definition signal_value (embeddings : list tensor) (s : signal) : M tensor :=
  match s with
  | LinearSignal =>
      (c <- torch (concat_fun embeddings) ;; torch (torch_flatten c 1))%st
  | InnerProductSignal =>
      (p <- self_innerproduct embeddings ;; torch (torch_flatten p 1))%st
  | OuterProductSignal => self_outterproduct embeddings
  end.

Fixpoint for_each {A B} (f : A -> M B) (l : list A) : M (list B) :=
  match l with
  | [] => ret []
  | x :: l' => (y <- f x ;; ys <- for_each f l' ;; ret (y :: ys))%st
  end.

(** One signal alone is the product layer; several are concatenated along
    dimension 1. *)
Definition concatenation (values : list tensor) : M tensor :=
  match values with
  | [v] => ret v
  | _ => torch (torch_cat values 1)
  end.

Definition stage_embeddings (X : tensor) : M (list tensor * list tensor) :=
  ( columns <- attr (fun self => dnn_feature_columns (base self)) ;;
    dict <- attr (fun self => get_embedding_dict (base self)) ;;
    self_method (fun b => input_from_feature_columns b X columns dict) )%st.

Definition meta_transformed (X : tensor) (embeddings : list tensor)
  : M (list tensor) :=
  ( joined <- torch (torch_cat embeddings 1) ;;
    moved <- self_method (fun b => meta_transformation b X joined) ;;
    torch (split moved 1 1) )%st.

Definition stage_meta_transformation (X : tensor) (embeddings : list tensor)
  : M (list tensor) :=
  ( flag <- attr (fun self => flag (base self)) ;;
    wanted <- py_in "metatrans" flag ;;
    if wanted then meta_transformed X embeddings else ret embeddings )%st.

Definition stage_product_layer (terms : list signal) (embeddings : list tensor)
  : M tensor :=
  ( values <- for_each (signal_value embeddings) terms ;;
    concatenation values )%st.

Definition stage_dense_network (product_layer : tensor) (dense : list tensor)
  : M tensor :=
  ( input <- torch (combined_dnn_input [product_layer] dense) ;;
    self_dnn input )%st.

Definition stage_linear_output (hidden : tensor) : M tensor :=
  self_dnn_linear hidden.

Definition stage_activation (logit : tensor) : M tensor :=
  self_method (fun b => out b logit).

(** Everything after the embeddings are settled. *)
Definition from_embeddings (terms : list signal)
  (embeddings dense : list tensor) : M tensor :=
  ( product_layer <- stage_product_layer terms embeddings ;;
    hidden <- stage_dense_network product_layer dense ;;
    logit <- stage_linear_output hidden ;;
    stage_activation logit )%st.

Definition pipeline_with (terms : list signal) (X : tensor) : M tensor :=
  ( ' (embeddings, dense) <- stage_embeddings X ;;
    embeddings <- stage_meta_transformation X embeddings ;;
    from_embeddings terms embeddings dense )%st.

Definition pipeline (X : tensor) : M tensor :=
  fun self =>
    pipeline_with (selected (use_inner self) (use_outter self)) X self.

(** A computation that leaves the model as it found it, whatever it
    returns or raises. *)
Definition reads {A} (c : M A) : Prop := forall self, snd (c self) = self.

(** *** What is assumed of the called code *)

(** The calls that [forward] makes on the model leave it as it was. *)
Record ReadOnlyCalls : Prop := {
  input_from_feature_columns_reads :
    forall b X columns dict,
      snd (input_from_feature_columns b X columns dict) = b;
  meta_transformation_reads :
    forall b X t, snd (meta_transformation b X t) = b;
  out_reads : forall b t, snd (out b t) = b;
  call_InnerProductLayer_reads :
    forall layer ts, snd (call_InnerProductLayer layer ts) = layer;
  call_OutterProductLayer_reads :
    forall layer ts, snd (call_OutterProductLayer layer ts) = layer;
  call_DNN_reads : forall layer t, snd (call_DNN layer t) = layer;
  call_Linear_reads : forall layer t, snd (call_Linear layer t) = layer
}.

(** The shape conventions of the tensor library, each for a call that
    returns: [shape] is [Tensor.shape], [in_features] and [out_features]
    the attributes of [nn.Linear].  A tensor is [batched n] when it has [n]
    rows and at least one more dimension. *)
Definition batched (shape : tensor -> list Z) (n : Z) (t : tensor) : Prop :=
  exists d rest, shape t = n :: d :: rest.

Record ShapeConventions (shape : tensor -> list Z)
  (in_features out_features : Linear -> Z) : Prop := {
  input_from_feature_columns_shape :
    forall b X columns dict sparse dense b' n rest,
      input_from_feature_columns b X columns dict = (inr (sparse, dense), b') ->
      shape X = n :: rest ->
      Forall (batched shape n) sparse;
  torch_cat_shape :
    forall ts t n,
      torch_cat ts 1 = inr t ->
      exists t0 ts', ts = t0 :: ts' /\ (batched shape n t0 -> batched shape n t);
  meta_transformation_shape :
    forall b X t t' b' n,
      meta_transformation b X t = (inr t', b') ->
      batched shape n t -> batched shape n t';
  split_shape :
    forall t ts n,
      split t 1 1 = inr ts -> batched shape n t -> Forall (batched shape n) ts;
  concat_fun_shape :
    forall ts t n,
      concat_fun ts = inr t ->
      exists t0 ts', ts = t0 :: ts' /\ (batched shape n t0 -> batched shape n t);
  torch_flatten_shape :
    forall t t' n,
      torch_flatten t 1 = inr t' ->
      batched shape n t -> exists d, shape t' = [n; d];
  combined_dnn_input_shape :
    forall product_layer dense t n,
      combined_dnn_input [product_layer] dense = inr t ->
      batched shape n product_layer -> exists d', shape t = [n; d'];
  call_DNN_shape :
    forall layer t t' layer' n d,
      call_DNN layer t = (inr t', layer') ->
      shape t = [n; d] -> exists h, shape t' = [n; h];
  call_Linear_shape :
    forall layer t t' layer' n d,
      call_Linear layer t = (inr t', layer') ->
      shape t = [n; d] -> shape t' = [n; out_features layer];
  out_shape :
    forall b t t' b', out b t = (inr t', b') -> shape t' = shape t;
  new_Linear_features :
    forall i o bias layer,
      new_Linear i o bias = inr layer ->
      in_features layer = i /\ out_features layer = o;
  Module_to_Linear :
    forall (layer layer' : Linear) device,
      Module_to layer device = inr layer' ->
      in_features layer' = in_features layer
      /\ out_features layer' = out_features layer;
  Module_to_PNN :
    forall (self self' : PNN) device,
      Module_to self device = inr self' ->
      in_features (dnn_linear self') = in_features (dnn_linear self)
      /\ out_features (dnn_linear self') = out_features (dnn_linear self)
}.

End PNNSpec.

(** ** A library of shapes

    One implementation of the interface, in which a tensor is its shape and
    every function computes the shape that torch and deepctr_torch give to
    their result, or fails where they reject the shapes.  The general
    theorems do not depend on it; it shows that their assumptions can be
    met and lets [__init__] and [forward] run on examples. *)

Module ShapeLib.

Inductive column : Type :=
| SparseFeat (embedding_dim : Z)
| DenseFeat (dimension : Z).

Record base_model : Type := {
  b_flag : Py.pyobj;
  b_columns : list column;
  b_regularization : list (list string)
}.

Record dnn_layer : Type := { inputs_dim : Z; hidden_units : list Z }.

Record linear_layer : Type := { in_features : Z; out_features : Z }.

Record outter_layer : Type := {
  num_inputs : Z; embed_size : Z; kernel : string
}.

Definition types : Types :=
  {| tensor := list Z;
     lib_error := string;
     scalar := Py.pyfloat;
     feature_column := column;
     embedding_dict := unit;
     parameter := string;
     BaseModel := base_model;
     InnerProductLayer := unit;
     OutterProductLayer := outter_layer;
     DNN := dnn_layer;
     Linear := linear_layer |}.

Fixpoint shape_eqb (s1 s2 : list Z) : bool :=
  match s1, s2 with
  | [], [] => true
  | x :: r1, y :: r2 => (x =? y) && shape_eqb r1 r2
  | _, _ => false
  end.

(** A dimension index counted from the end when negative. *)
Definition normalize (dim : Z) (rank : nat) : option nat :=
  let d := if dim <? 0 then dim + Z.of_nat rank else dim in
  if (0 <=? d) && (d <? Z.of_nat rank) then Some (Z.to_nat d) else None.

(** Two shapes joined along dimension [d]: equal elsewhere, added there. *)
Fixpoint cat2 (d : nat) (s1 s2 : list Z) : option (list Z) :=
  match s1, s2 with
  | x :: r1, y :: r2 =>
      match d with
      | O => if shape_eqb r1 r2 then Some (x + y :: r1) else None
      | S d' => if x =? y then option_map (cons x) (cat2 d' r1 r2) else None
      end
  | _, _ => None
  end.

Definition cat_step (d : nat) (acc : option (list Z)) (s : list Z)
  : option (list Z) :=
  match acc with
  | Some a => cat2 d a s
  | None => None
  end.

Definition cat (ts : list (list Z)) (dim : Z) : string + list Z :=
  match ts with
  | [] => inl "expected a non-empty list of Tensors"
  | t0 :: rest =>
      match normalize dim (List.length t0) with
      | None => inl "Dimension out of range"
      | Some d =>
          match fold_left (cat_step d) rest (Some t0) with
          | Some t => inr t
          | None => inl "Sizes of tensors must match"
          end
      end
  end.

Definition flatten1 (t : list Z) : string + list Z :=
  match t with
  | n :: d :: rest => inr [n; fold_right Z.mul 1 (d :: rest)]
  | _ => inl "Dimension out of range"
  end.

Definition flatten (t : list Z) (start_dim : Z) : string + list Z :=
  if start_dim =? 1 then flatten1 t else inl "start_dim not modelled".

Definition split1 (t : list Z) (split_size dim : Z) : string + list (list Z) :=
  match t with
  | n :: k :: rest =>
      if (split_size =? 1) && (dim =? 1)
      then inr (repeat (n :: 1 :: rest) (Z.to_nat k))
      else inl "split not modelled"
  | _ => inl "Dimension out of range"
  end.

Definition concat (ts : list (list Z)) : string + list Z :=
  match ts with
  | [t] => inr t
  | _ => cat ts (-1)
  end.

Definition flat_cat (ts : list (list Z)) : string + list Z :=
  match cat ts (-1) with
  | inr t => flatten1 t
  | inl e => inl e
  end.

Definition combined (sparse dense : list (list Z)) : string + list Z :=
  match sparse, dense with
  | _ :: _, _ :: _ =>
      match flat_cat sparse, flat_cat dense with
      | inr s, inr d => concat [s; d]
      | inl e, _ => inl e
      | _, inl e => inl e
      end
  | _ :: _, [] => flat_cat sparse
  | [], _ :: _ => flat_cat dense
  | [], [] => inl "NotImplementedError"
  end.

Definition sparse_dims (columns : list column) : list Z :=
  flat_map (fun c => match c with SparseFeat e => [e] | DenseFeat _ => [] end)
    columns.

Definition dense_dims (columns : list column) : list Z :=
  flat_map (fun c => match c with DenseFeat d => [d] | SparseFeat _ => [] end)
    columns.

Definition sum (l : list Z) : Z := fold_right Z.add 0 l.

(** The length of the slice [start:stop] of a dimension of [width] items:
    a slice is cut at the end of the dimension. *)
Definition slice_length (width start stop : Z) : Z :=
  Z.max 0 (Z.min stop width - Z.min start width).

(** The embeddings and the dense values of a batch [n :: width :: rest].
    The features own consecutive columns in the order of [columns], one
    for a sparse feature and [dimension] for a dense one; each feature
    takes the slice [X[:, start:stop]] of its columns, and a sparse
    feature embeds every index of its slice in [embedding_dim] numbers. *)
Fixpoint lookup_from (n width : Z) (rest : list Z) (start : Z)
  (columns : list column) : list (list Z) * list (list Z) :=
  match columns with
  | [] => ([], [])
  | SparseFeat e :: columns' =>
      let (sparse, dense) := lookup_from n width rest (start + 1) columns' in
      ((n :: slice_length width start (start + 1) :: rest ++ [e]) :: sparse,
       dense)
  | DenseFeat d :: columns' =>
      let (sparse, dense) := lookup_from n width rest (start + d) columns' in
      (sparse, (n :: slice_length width start (start + d) :: rest) :: dense)
  end.

(** [input_from_feature_columns]: the batch is sliced, so columns beyond
    the last feature are ignored, and a batch with fewer than two
    dimensions cannot be sliced. *)
Definition lookup (b : base_model) (X : list Z) (columns : list column)
  (dict : unit) : (string + (list (list Z) * list (list Z))) * base_model :=
  match columns, X with
  | [], _ => (inr ([], []), b)
  | _ :: _, n :: width :: rest =>
      (inr (lookup_from n width rest 0 columns), b)
  | _ :: _, _ => (inl "too many indices for tensor", b)
  end.

Definition pairs (k : Z) : Z := k * (k - 1) / 2.

(** The pairs [(l[i], l[j])] with [i < j], in the order of the two nested
    loops of the product layers. *)
Fixpoint pairs_of {A} (l : list A) : list (A * A) :=
  match l with
  | [] => []
  | x :: l' => map (pair x) l' ++ pairs_of l'
  end.

(** Broadcasting: two sizes agree when they are equal or one of them
    is 1. *)
Definition broadcast_dim (x y : Z) : option Z :=
  if x =? y then Some x
  else if x =? 1 then Some y
  else if y =? 1 then Some x
  else None.

(** Two shapes given from their last dimension on. *)
Fixpoint broadcast_rev (r1 r2 : list Z) : option (list Z) :=
  match r1, r2 with
  | [], _ => Some r2
  | _ :: _, [] => Some r1
  | x :: r1', y :: r2' =>
      match broadcast_dim x y, broadcast_rev r1' r2' with
      | Some z, Some r => Some (z :: r)
      | _, _ => None
      end
  end.

(** The shape of [a * b]. *)
Definition broadcast (s1 s2 : list Z) : string + list Z :=
  match broadcast_rev (rev s1) (rev s2) with
  | Some r => inr (rev r)
  | None => inl "The size of tensor a must match the size of tensor b"
  end.

(** [torch.sum(t, dim=2, keepdim=True)]. *)
Definition sum_keepdim2 (t : list Z) : string + list Z :=
  match t with
  | a :: b :: _ :: rest => inr (a :: b :: 1 :: rest)
  | _ => inl "Dimension out of range"
  end.

(** [torch.transpose(t, 2, 1)]. *)
Definition transpose21 (t : list Z) : string + list Z :=
  match t with
  | a :: b :: c :: rest => inr (a :: c :: b :: rest)
  | _ => inl "Dimension out of range"
  end.

(** [t.unsqueeze_(dim=1)]. *)
Definition unsqueeze1 (t : list Z) : string + list Z :=
  match t with
  | a :: rest => inr (a :: 1 :: rest)
  | [] => inl "Dimension out of range"
  end.

Definition then_shape (r : string + list Z) (f : list Z -> string + list Z)
  : string + list Z :=
  match r with
  | inr t => f t
  | inl e => inl e
  end.

(** [InnerProductLayer.forward]: the first and the second embeddings of
    every pair are joined along dimension 1, multiplied, and summed over
    the embedding dimension.  With fewer than two embeddings there is no
    pair, and [torch.cat] rejects the empty list. *)
Definition inner_product (ts : list (list Z)) : string + list Z :=
  then_shape (cat (map fst (pairs_of ts)) 1) (fun p =>
  then_shape (cat (map snd (pairs_of ts)) 1) (fun q =>
  then_shape (broadcast p q) sum_keepdim2)).

Definition inner (layer : unit) (ts : list (list Z))
  : (string + list Z) * unit :=
  (inner_product ts, layer).

(** [num_pairs] of [OutterProductLayer.__init__], computed like line 49. *)
Definition kernel_pairs (num_inputs : Z) : Z :=
  match Py.int_truediv (num_inputs * (num_inputs - 1)) 2 with
  | Py.Quotient x => Py.int_of_float x
  | _ => 0
  end.

(** The shape of [self.kernel], which only the three kernel types have. *)
Definition kernel_shape (layer : outter_layer) : string + list Z :=
  let num_pairs := kernel_pairs (num_inputs layer) in
  if (kernel layer =? "mat")%string
  then inr [embed_size layer; num_pairs; embed_size layer]
  else if (kernel layer =? "vec")%string
  then inr [num_pairs; embed_size layer]
  else if (kernel layer =? "num")%string
  then inr [num_pairs; 1]
  else inl "'OutterProductLayer' object has no attribute 'kernel'".

(** [OutterProductLayer.forward]: the pairs as in the inner product; with
    kernel type 'mat' the sum over the last dimension of
    [transpose(sum(p.unsqueeze(1) * kernel, -1), 2, 1) * q], otherwise of
    [p * q * kernel.unsqueeze(0)]. *)
Definition outter_product (layer : outter_layer) (ts : list (list Z))
  : string + list Z :=
  then_shape (cat (map fst (pairs_of ts)) 1) (fun p =>
  then_shape (cat (map snd (pairs_of ts)) 1) (fun q =>
  if (kernel layer =? "mat")%string
  then
    then_shape (unsqueeze1 p) (fun p1 =>
    then_shape (kernel_shape layer) (fun k =>
    then_shape (broadcast p1 k) (fun pk =>
    then_shape (transpose21 (removelast pk)) (fun t =>
    then_shape (broadcast t q) (fun kp => inr (removelast kp))))))
  else
    then_shape (kernel_shape layer) (fun k =>
    then_shape (broadcast p q) (fun pq =>
    then_shape (broadcast pq (1 :: k)) (fun kp => inr (removelast kp)))))).

Definition outter (layer : outter_layer) (ts : list (list Z))
  : (string + list Z) * outter_layer :=
  (outter_product layer ts, layer).

Definition dense_net (layer : dnn_layer) (t : list Z)
  : (string + list Z) * dnn_layer :=
  match t, Py.last_item (hidden_units layer) with
  | [n; d], Some h =>
      if d =? inputs_dim layer then (inr [n; h], layer)
      else (inl "mat1 and mat2 shapes cannot be multiplied", layer)
  | _, _ => (inl "the input is not a matrix", layer)
  end.

Definition linear (layer : linear_layer) (t : list Z)
  : (string + list Z) * linear_layer :=
  match rev t with
  | d :: r =>
      if d =? in_features layer
      then (inr (rev (out_features layer :: r)), layer)
      else (inl "mat1 and mat2 shapes cannot be multiplied", layer)
  | [] => (inl "the input has no dimension", layer)
  end.

Definition input_dim (b : base_model) (columns : list column)
  (include_dense feature_group : bool) : string + Z :=
  let sparse :=
    if feature_group then Z.of_nat (List.length (sparse_dims columns))
    else sum (sparse_dims columns) in
  inr (sparse + (if include_dense then sum (dense_dims columns) else 0)).

Definition common_embedding_size (b : base_model) : string + Z :=
  match sparse_dims (b_columns b) with
  | [] => inl "list index out of range"
  | e :: rest =>
      if forallb (Z.eqb e) rest then inr e
      else inl "embedding_dim of SparseFeat must be same in this model"
  end.

Definition weight_names (weights : @reg_weights types) : list string :=
  match weights with
  | NamedParameters l => map fst l
  | OneParameter p => [p]
  end.

Definition regularize (b : base_model) (weights : @reg_weights types)
  (l2 : Py.pyfloat) : string + base_model :=
  inr {| b_flag := b_flag b;
         b_columns := b_columns b;
         b_regularization := b_regularization b ++ [weight_names weights] |}.

Definition init (a : @BaseArgs.t types) : string + base_model :=
  inr {| b_flag := BaseArgs.flag a;
         b_columns := BaseArgs.dnn_feature_columns a;
         b_regularization := [] |}.

Definition new_dnn (inputs_dim : Z) (hidden_units : list Z) (act : string)
  (l2 dropout : Py.pyfloat) (use_bn : bool) (init_std : Py.pyfloat)
  (device : string) : string + dnn_layer :=
  match hidden_units with
  | [] => inl "hidden_units is empty!!"
  | _ => inr {| inputs_dim := inputs_dim; hidden_units := hidden_units |}
  end.

Definition layer_parameters (layer : dnn_layer) : list (string * string) :=
  flat_map (fun _ => [("linears.weight", "linears.weight");
                      ("linears.bias", "linears.bias")])
    (hidden_units layer).

Definition library : @Library types :=
  {| BaseModel_init := init;
     flag := b_flag;
     dnn_feature_columns := b_columns;
     get_embedding_dict := fun _ => tt;
     embedding_size := common_embedding_size;
     compute_input_dim := input_dim;
     add_regularization_weight := regularize;
     input_from_feature_columns := lookup;
     meta_transformation := fun b X t => (inr t, b);
     out := fun b t => (inr t, b);
     new_InnerProductLayer := fun device => inr tt;
     call_InnerProductLayer := inner;
     new_OutterProductLayer := fun n e k device =>
       inr {| num_inputs := n; embed_size := e; kernel := k |};
     call_OutterProductLayer := outter;
     new_DNN := new_dnn;
     call_DNN := dense_net;
     named_parameters := layer_parameters;
     concat_fun := concat;
     combined_dnn_input := combined;
     new_Linear := fun i o bias =>
       inr {| in_features := i; out_features := o |};
     call_Linear := linear;
     weight := fun _ => "dnn_linear.weight";
     Module_to := fun A a device => inr a;
     torch_cat := cat;
     torch_flatten := flatten;
     split := split1 |}.

(** [Tensor.shape]. *)
Definition shape (t : list Z) : list Z := t.

(** *** Examples *)

Definition zero : Py.pyfloat := {| Py.mant := 0; Py.expo := 0 |}.

(** Three sparse features embedded in dimension 4 and one dense feature. *)
Definition example_columns : list column :=
  [SparseFeat 4; SparseFeat 4; SparseFeat 4; DenseFeat 1].

Definition example_args (use_inner use_outter : bool) (kernel_type : string)
  (hidden : list Z) (flag : Py.pyobj) : @Args.t types :=
  @Args.Build_t types
    example_columns hidden zero zero zero 1024 zero "relu"
    use_inner use_outter kernel_type "binary" "cpu"
    Py.PyNone flag Py.PyNone Py.PyNone [32; 64; 32].

(** The model that [__init__] builds from [example_args], written out. *)
Definition example_model (use_inner use_outter : bool) (kernel_type : string)
  (flag : Py.pyobj) : @PNN types :=
  @Build_PNN types
    {| b_flag := flag;
       b_columns := example_columns;
       b_regularization :=
         [["linears.weight"; "linears.weight"]; ["dnn_linear.weight"]] |}
    use_inner use_outter kernel_type "binary"
    (if use_inner then Some tt else None)
    (if use_outter
     then Some {| num_inputs := 3; embed_size := 4; kernel := kernel_type |}
     else None)
    {| inputs_dim :=
         (if use_inner then 3 else 0) + (if use_outter then 3 else 0) + 13;
       hidden_units := [128; 128] |}
    {| in_features := 128; out_features := 1 |}.

(** What the base class owns in [example_model]. *)
Definition example_base (flag : Py.pyobj) : base_model :=
  {| b_flag := flag; b_columns := example_columns; b_regularization := [] |}.

(** A batch of 32 samples, one column per feature. *)
Definition example_batch : list Z := [32; 4].

(** The embeddings and the dense values of [example_batch]. *)
Definition example_sparse : list (list Z) := [[32; 1; 4]; [32; 1; 4]; [32; 1; 4]].

Definition example_dense : list (list Z) := [[32; 1]].

(** [example_args] for other feature columns. *)
Definition args_for (columns : list column) (hidden : list Z)
  (use_inner use_outter : bool) (kernel_type : string) (flag : Py.pyobj)
  : @Args.t types :=
  @Args.Build_t types
    columns hidden zero zero zero 1024 zero "relu"
    use_inner use_outter kernel_type "binary" "cpu"
    Py.PyNone flag Py.PyNone Py.PyNone [32; 64; 32].

End ShapeLib.

(** ** Variants of a model and of the library

    Used by the properties of [__init__] and [forward] beyond the data flow:
    a model with another layer attribute, and libraries whose base class
    validates [task] and [seed]. *)

Section Variants.
Context {T : Types}.

(** [self] with [self.innerproduct] replaced or removed. *)
Definition with_innerproduct (layer : option InnerProductLayer) (self : PNN)
  : PNN :=
  {| base := base self; use_inner := use_inner self;
     use_outter := use_outter self; kernel_type := kernel_type self;
     task := task self; innerproduct := layer;
     outterproduct := outterproduct self;
     dnn := dnn self; dnn_linear := dnn_linear self |}.

(** [self] with [self.outterproduct] replaced or removed. *)
Definition with_outterproduct (layer : option OutterProductLayer) (self : PNN)
  : PNN :=
  {| base := base self; use_inner := use_inner self;
     use_outter := use_outter self; kernel_type := kernel_type self;
     task := task self; innerproduct := innerproduct self;
     outterproduct := layer;
     dnn := dnn self; dnn_linear := dnn_linear self |}.

End Variants.

Module StrictLib.
Import ShapeLib.

(** The base class building its prediction layer: a task other than
    'binary', 'multiclass' or 'regression' is rejected. *)
Definition init (a : @BaseArgs.t types) : string + base_model :=
  if Py.str_in_list (BaseArgs.task a) ["binary"; "multiclass"; "regression"]
  then ShapeLib.init a
  else inl "task must be binary,multiclass or regression".

Definition library : @Library types :=
  {| BaseModel_init := init;
     flag := b_flag;
     dnn_feature_columns := b_columns;
     get_embedding_dict := fun _ => tt;
     embedding_size := common_embedding_size;
     compute_input_dim := input_dim;
     add_regularization_weight := regularize;
     input_from_feature_columns := lookup;
     meta_transformation := fun b X t => (inr t, b);
     out := fun b t => (inr t, b);
     new_InnerProductLayer := fun device => inr tt;
     call_InnerProductLayer := inner;
     new_OutterProductLayer := fun n e k device =>
       inr {| num_inputs := n; embed_size := e; kernel := k |};
     call_OutterProductLayer := outter;
     new_DNN := new_dnn;
     call_DNN := dense_net;
     named_parameters := layer_parameters;
     concat_fun := concat;
     combined_dnn_input := combined;
     new_Linear := fun i o bias =>
       inr {| in_features := i; out_features := o |};
     call_Linear := linear;
     weight := fun _ => "dnn_linear.weight";
     Module_to := fun A a device => inr a;
     torch_cat := cat;
     torch_flatten := flatten;
     split := split1 |}.

(** [example_args] with another task. *)
Definition example_args_for (task : string) : @Args.t types :=
  @Args.Build_t types
    example_columns [128; 128] zero zero zero 1024 zero "relu"
    true false "poly" task "cpu"
    Py.PyNone Py.PyNone Py.PyNone Py.PyNone [32; 64; 32].

End StrictLib.

Module SeedLib.
Import ShapeLib.

(** The base class seeds torch before anything else:
    [torch.manual_seed] takes a seed from -2^63 to 2^64 - 1 and raises
    RuntimeError for any other integer.  The task is validated afterwards,
    as in [StrictLib]. *)
Definition init (a : @BaseArgs.t types) : string + base_model :=
  if (- 2 ^ 63 <=? BaseArgs.seed a) && (BaseArgs.seed a <=? 2 ^ 64 - 1)
  then StrictLib.init a
  else inl "RuntimeError: Overflow when unpacking long".

Definition library : @Library types :=
  {| BaseModel_init := init;
     flag := b_flag;
     dnn_feature_columns := b_columns;
     get_embedding_dict := fun _ => tt;
     embedding_size := common_embedding_size;
     compute_input_dim := input_dim;
     add_regularization_weight := regularize;
     input_from_feature_columns := lookup;
     meta_transformation := fun b X t => (inr t, b);
     out := fun b t => (inr t, b);
     new_InnerProductLayer := fun device => inr tt;
     call_InnerProductLayer := inner;
     new_OutterProductLayer := fun n e k device =>
       inr {| num_inputs := n; embed_size := e; kernel := k |};
     call_OutterProductLayer := outter;
     new_DNN := new_dnn;
     call_DNN := dense_net;
     named_parameters := layer_parameters;
     concat_fun := concat;
     combined_dnn_input := combined;
     new_Linear := fun i o bias =>
       inr {| in_features := i; out_features := o |};
     call_Linear := linear;
     weight := fun _ => "dnn_linear.weight";
     Module_to := fun A a device => inr a;
     torch_cat := cat;
     torch_flatten := flatten;
     split := split1 |}.

(** [example_args] with another seed. *)
Definition example_args_seeded (use_inner use_outter : bool)
  (kernel_type : string) (seed : Z) : @Args.t types :=
  @Args.Build_t types
    example_columns [128; 128] zero zero zero seed zero "relu"
    use_inner use_outter kernel_type "binary" "cpu"
    Py.PyNone Py.PyNone Py.PyNone Py.PyNone [32; 64; 32].

End SeedLib.

(** * Properties *)

(** ** Python operations *)

Module PyFacts.
Import Py.

Lemma str_in_list_In (x : string) (l : list string) :
  str_in_list x l = true <-> In x l.
Proof.
  unfold str_in_list. rewrite existsb_exists. split.
  - intros [y [Hy Heq]]. apply String.eqb_eq in Heq. now subst.
  - intros H. exists x. split; [assumption | apply String.eqb_refl].
Qed.

Lemma contains_defined (x : string) (o : pyobj) :
  (exists b, contains x o = Some b) <-> supports_membership o = true.
Proof.
  destruct o; simpl; split; intros H; try discriminate; try reflexivity;
    try (destruct H; discriminate); eauto.
Qed.

End PyFacts.

(** ** The monad of [forward] *)

Section MonadFacts.
Context {T : Types} {L : Library}.

Lemma self_eta (self : PNN) :
  {| base := base self; use_inner := use_inner self;
     use_outter := use_outter self; kernel_type := kernel_type self;
     task := task self; innerproduct := innerproduct self;
     outterproduct := outterproduct self; dnn := dnn self;
     dnn_linear := dnn_linear self |} = self.
Proof. destruct self; reflexivity. Qed.

End MonadFacts.

(** Unfolds the monad and the stages of the pipeline. *)
Ltac unfold_calls :=
  cbv beta iota zeta delta
    [forward pipeline pipeline_with from_embeddings stage_embeddings
     stage_meta_transformation meta_transformed stage_product_layer
     stage_dense_network stage_linear_output stage_activation concatenation
     selected for_each signal_value bind attr ret raise torch self_method
     self_innerproduct self_outterproduct self_dnn self_dnn_linear py_in
     local lib app set_base
     base use_inner use_outter kernel_type task innerproduct outterproduct
     dnn dnn_linear].

(** Runs both sides of an equation between computations, following every
    call on its possible results. *)
Ltac run_calls :=
  repeat (unfold_calls;
          match goal with
          | |- context [match ?c with _ => _ end] =>
              lazymatch c with
              | context [match _ with _ => _ end] => fail
              | _ => destruct c eqn:?
              end
          end);
  unfold_calls; try reflexivity.

Section Pipeline.
Context {T : Types} {L : Library}.

Lemma forward_pipeline_with (X : tensor) (self : PNN) :
  forward X self
  = pipeline_with (selected (use_inner self) (use_outter self)) X self.
Proof.
  destruct self as [b [|] [|] kt tk ip op d dl]; run_calls.
Qed.

(** C3. For every input batch and every model, [forward] computes what the
    pipeline of the specification computes, stage after stage: embeddings
    from the feature columns, the optional meta-transformation, the
    concatenation of the linear, inner-product and outer-product signals,
    the dense network on that and the dense values, the linear output, the
    activation.  Result and final state of the model agree, also when a
    stage raises. *)
Theorem forward_follows_pipeline (X : tensor) (self : PNN) :
  forward X self = pipeline X self.
Proof.
  unfold pipeline. apply forward_pipeline_with.
Qed.

Lemma selected_inner (inner outter : bool) :
  In InnerProductSignal (selected inner outter) <-> inner = true.
Proof.
  destruct inner, outter; simpl; intuition discriminate.
Qed.

Lemma selected_outer (inner outter : bool) :
  In OuterProductSignal (selected inner outter) <-> outter = true.
Proof.
  destruct inner, outter; simpl; intuition discriminate.
Qed.

Lemma product_out_dim_toggles (inner outter : bool) (n : Z) :
  product_out_dim inner outter n = n * (Z.b2z inner + Z.b2z outter).
Proof.
  unfold product_out_dim. destruct inner, outter; simpl Z.b2z; lia.
Qed.

(** C4. The toggles select the product terms: [forward] concatenates the
    signals of [selected (use_inner self) (use_outter self)], which holds
    the inner-product signal exactly when [use_inner] is true and the
    outer-product signal exactly when [use_outter] is true; with both false
    the product layer is the linear signal alone; and the constructor adds
    [num_pairs] to [product_out_dim] once per enabled toggle, that is once
    per selected product signal. *)
Theorem product_terms_follow_toggles (X : tensor) (self : PNN) (n : Z) :
  let terms := selected (use_inner self) (use_outter self) in
  forward X self = pipeline_with terms X self
  /\ (In InnerProductSignal terms <-> use_inner self = true)
  /\ (In OuterProductSignal terms <-> use_outter self = true)
  /\ (forall embeddings s,
         stage_product_layer (selected false false) embeddings s
         = signal_value embeddings LinearSignal s)
  /\ product_out_dim (use_inner self) (use_outter self) n
     = n * (Z.b2z (use_inner self) + Z.b2z (use_outter self))
  /\ product_out_dim (use_inner self) (use_outter self) n
     = n * Z.of_nat (List.length (tl terms)).
Proof.
  intros terms. subst terms.
  split; [apply forward_pipeline_with |].
  split; [apply selected_inner |].
  split; [apply selected_outer |].
  split; [intros embeddings s; run_calls |].
  split; [apply product_out_dim_toggles |].
  rewrite product_out_dim_toggles.
  destruct (use_inner self), (use_outter self); reflexivity.
Qed.

Lemma forward_after_embeddings (X : tensor) (self : PNN)
  (sparse dense : list tensor) (b' : BaseModel) :
  input_from_feature_columns (base self) X (dnn_feature_columns (base self))
    (get_embedding_dict (base self)) = (inr (sparse, dense), b') ->
  forward X self
  = (embeddings <- stage_meta_transformation X sparse ;;
     from_embeddings (selected (use_inner self) (use_outter self))
       embeddings dense)%st (set_base b' self).
Proof.
  intros Hcall. rewrite forward_pipeline_with.
  unfold pipeline_with at 1, stage_embeddings at 1.
  unfold bind at 1 2 3, attr, self_method. rewrite Hcall. reflexivity.
Qed.

(** C5. The meta-transformation is optional.  Once the embeddings are
    looked up, [forward] continues with the meta-transformed embeddings
    when 'metatrans' is in [self.flag], and with the embeddings of the
    feature columns themselves, from the linear signal on, when it is not.
    *)
Theorem meta_transformation_is_optional (X : tensor) (self : PNN)
  (sparse dense : list tensor) (b' : BaseModel) :
  input_from_feature_columns (base self) X (dnn_feature_columns (base self))
    (get_embedding_dict (base self)) = (inr (sparse, dense), b') ->
  let terms := selected (use_inner self) (use_outter self) in
  (Py.contains "metatrans" (flag b') = Some true ->
   forward X self
   = (embeddings <- meta_transformed X sparse ;;
      from_embeddings terms embeddings dense)%st (set_base b' self))
  /\ (Py.contains "metatrans" (flag b') = Some false ->
      forward X self = from_embeddings terms sparse dense (set_base b' self)).
Proof.
  intros Hcall terms. subst terms.
  rewrite (forward_after_embeddings _ _ _ _ _ Hcall).
  split; intros Hflag;
    unfold stage_meta_transformation, bind at 1 2, attr, py_in;
    simpl; rewrite Hflag; reflexivity.
Qed.

End Pipeline.

(** ** What [forward] does to the model *)

Section Frame.
Context {T : Types} {L : Library}.

Lemma reads_ret {A} (a : A) : reads (ret a).
Proof. intros self. reflexivity. Qed.

Lemma reads_raise {A} (e : exn) : reads (@raise _ A e).
Proof. intros self. reflexivity. Qed.

Lemma reads_attr {A} (f : PNN -> A) : reads (attr f).
Proof. intros self. reflexivity. Qed.

Lemma reads_torch {A} (r : lib_error + A) : reads (torch r).
Proof. intros self. reflexivity. Qed.

Lemma reads_bind {A B} (c : M A) (k : A -> M B) :
  reads c -> (forall a, reads (k a)) -> reads (bind c k).
Proof.
  intros Hc Hk self. unfold bind.
  specialize (Hc self). destruct (c self) as [[e | a] self']; simpl in *.
  - assumption.
  - rewrite Hk. assumption.
Qed.

Lemma reads_py_in (x : string) (o : Py.pyobj) : reads (py_in x o).
Proof.
  unfold py_in. destruct (Py.contains x o); [apply reads_ret | apply reads_raise].
Qed.

Lemma reads_local {A} (name : string) (v : option A) : reads (local name v).
Proof.
  destruct v; [apply reads_ret | apply reads_raise].
Qed.

Lemma reads_self_method {A} (f : BaseModel -> (lib_error + A) * BaseModel) :
  (forall b, snd (f b) = b) -> reads (self_method f).
Proof.
  intros Hf self. unfold self_method. specialize (Hf (base self)).
  destruct (f (base self)) as [r b]. simpl in *. subst b.
  apply self_eta.
Qed.

Section ReadOnly.
Hypothesis calls : ReadOnlyCalls.

Lemma reads_self_innerproduct (ts : list tensor) :
  reads (self_innerproduct ts).
Proof.
  intros self. unfold self_innerproduct.
  destruct (innerproduct self) as [layer |] eqn:Hlayer; [| reflexivity].
  pose proof (call_InnerProductLayer_reads calls layer ts) as H0.
  destruct (call_InnerProductLayer layer ts) as [r layer']. simpl in *.
  subst layer'. rewrite <- Hlayer. apply self_eta.
Qed.

Lemma reads_self_outterproduct (ts : list tensor) :
  reads (self_outterproduct ts).
Proof.
  intros self. unfold self_outterproduct.
  destruct (outterproduct self) as [layer |] eqn:Hlayer; [| reflexivity].
  pose proof (call_OutterProductLayer_reads calls layer ts) as H0.
  destruct (call_OutterProductLayer layer ts) as [r layer']. simpl in *.
  subst layer'. rewrite <- Hlayer. apply self_eta.
Qed.

Lemma reads_self_dnn (t : tensor) : reads (self_dnn t).
Proof.
  intros self. unfold self_dnn.
  pose proof (call_DNN_reads calls (dnn self) t) as H0.
  destruct (call_DNN (dnn self) t) as [r layer']. simpl in *.
  subst layer'. apply self_eta.
Qed.

Lemma reads_self_dnn_linear (t : tensor) : reads (self_dnn_linear t).
Proof.
  intros self. unfold self_dnn_linear.
  pose proof (call_Linear_reads calls (dnn_linear self) t) as H0.
  destruct (call_Linear (dnn_linear self) t) as [r layer']. simpl in *.
  subst layer'. apply self_eta.
Qed.

Lemma reads_forward (X : tensor) : reads (forward X).
Proof.
  unfold forward.
  repeat first
    [ apply reads_ret
    | apply reads_attr
    | apply reads_torch
    | apply reads_py_in
    | apply reads_local
    | apply reads_self_innerproduct
    | apply reads_self_outterproduct
    | apply reads_self_dnn
    | apply reads_self_dnn_linear
    | apply reads_self_method; intros;
      first [ apply (input_from_feature_columns_reads calls)
            | apply (meta_transformation_reads calls)
            | apply (out_reads calls) ]
    | apply reads_bind; [| intros ?]
    | match goal with
      | |- reads (match ?x with _ => _ end) => destruct x
      end ].
Qed.

End ReadOnly.

(** C7. [forward] assigns no attribute of the model: whenever the calls it
    makes into the layers and the base class leave the model as it was, the
    model after [forward] is the model before it, attribute by attribute,
    whether [forward] returns a prediction or raises. *)
Theorem forward_leaves_model_unchanged (X : tensor) (self : PNN) :
  ReadOnlyCalls -> snd (forward X self) = self.
Proof.
  intros calls. apply (reads_forward calls).
Qed.

End Frame.

(** ** The membership test on [self.flag] *)

Section Flag.
Context {T : Types} {L : Library}.

Lemma forward_without_embeddings (X : tensor) (self : PNN)
  (e : lib_error) (b' : BaseModel) :
  input_from_feature_columns (base self) X (dnn_feature_columns (base self))
    (get_embedding_dict (base self)) = (inl e, b') ->
  forward X self = (inl (LibraryError e), set_base b' self).
Proof.
  intros Hcall. unfold forward.
  unfold bind at 1 2 3, attr, self_method. rewrite Hcall. reflexivity.
Qed.

Lemma forward_without_container (X : tensor) (self : PNN)
  (r : list tensor * list tensor) (b' : BaseModel) :
  input_from_feature_columns (base self) X (dnn_feature_columns (base self))
    (get_embedding_dict (base self)) = (inr r, b') ->
  Py.supports_membership (flag b') = false ->
  forward X self = (inl TypeError, set_base b' self).
Proof.
  intros Hcall Hflag. destruct r as [sparse dense].
  rewrite (forward_after_embeddings _ _ _ _ _ Hcall).
  unfold stage_meta_transformation, bind at 1 2 3, attr, py_in. simpl.
  destruct (flag b'); simpl in *; try discriminate; reflexivity.
Qed.

(** C8. When the embedding lookup leaves [self.flag] as it is, a model
    whose [flag] is [None] never gets a prediction out of [forward]: if the
    lookup returns, the test ['metatrans' in self.flag] raises TypeError
    before anything else is computed, and if it raises, that exception
    ends the call.  A prediction therefore implies a [flag] that supports
    membership tests. *)
Theorem forward_needs_a_container (X : tensor) (self : PNN) :
  (forall b X' columns dict,
      flag (snd (input_from_feature_columns b X' columns dict)) = flag b) ->
  (flag (base self) = Py.PyNone ->
   (forall y, fst (forward X self) <> inr y)
   /\ (forall r b',
          input_from_feature_columns (base self) X
            (dnn_feature_columns (base self))
            (get_embedding_dict (base self)) = (inr r, b') ->
          forward X self = (inl TypeError, set_base b' self)))
  /\ (forall y,
         fst (forward X self) = inr y ->
         Py.supports_membership (flag (base self)) = true).
Proof.
  intros Hkeeps.
  pose proof (Hkeeps (base self) X (dnn_feature_columns (base self))
                (get_embedding_dict (base self))) as Hflag.
  destruct (input_from_feature_columns (base self) X
              (dnn_feature_columns (base self))
              (get_embedding_dict (base self))) as [[e | r] b'] eqn:Hcall;
    simpl in Hflag.
  - rewrite (forward_without_embeddings _ _ _ _ Hcall). simpl.
    repeat split; intros; discriminate.
  - split.
    + intros Hnone.
      assert (Hno : Py.supports_membership (flag b') = false)
        by (rewrite Hflag, Hnone; reflexivity).
      rewrite (forward_without_container _ _ _ _ Hcall Hno). simpl.
      split; [intros y Hy; discriminate |].
      intros r0 b0 Heq. inversion Heq; subst. reflexivity.
    + intros y Hy.
      destruct (Py.supports_membership (flag (base self))) eqn:Hmem;
        [reflexivity |].
      rewrite <- Hflag in Hmem.
      rewrite (forward_without_container _ _ _ _ Hcall Hmem) in Hy.
      discriminate.
Qed.

End Flag.

(** ** The shape of the prediction *)

Section Returns.
Context {T : Types} {L : Library}.

Lemma bind_returns {A B} (c : M A) (k : A -> M B) self b self2 :
  bind c k self = (inr b, self2) ->
  exists a self1, c self = (inr a, self1) /\ k a self1 = (inr b, self2).
Proof.
  unfold bind. destruct (c self) as [[e | a] self1]; intros H.
  - discriminate.
  - exists a, self1. split; [reflexivity | assumption].
Qed.

Lemma bindE_returns {A B} (c : E A) (k : A -> E B) b :
  bindE c k = inr b -> exists a, c = inr a /\ k a = inr b.
Proof.
  unfold bindE. destruct c as [e | a]; intros Hrun.
  - discriminate.
  - exists a. split; [reflexivity | assumption].
Qed.

Lemma lib_returns {A} (r : lib_error + A) a : lib r = inr a -> r = inr a.
Proof.
  unfold lib. destruct r; intros Hrun; inversion Hrun. reflexivity.
Qed.

Lemma ret_returns {A} (a a' : A) self self1 :
  ret a self = (inr a', self1) -> a' = a /\ self1 = self.
Proof. unfold ret. intros H. inversion H. split; reflexivity. Qed.

Lemma attr_returns {A} (f : PNN -> A) a self self1 :
  attr f self = (inr a, self1) -> a = f self /\ self1 = self.
Proof. unfold attr. intros H. inversion H. split; reflexivity. Qed.

Lemma torch_returns {A} (r : lib_error + A) a self self1 :
  torch r self = (inr a, self1) -> r = inr a /\ self1 = self.
Proof.
  unfold torch, lib. destruct r; intros H; inversion H.
  split; reflexivity.
Qed.

Lemma py_in_returns x o b self self1 :
  py_in x o self = (inr b, self1) -> self1 = self.
Proof.
  unfold py_in. destruct (Py.contains x o); intros H; inversion H.
  reflexivity.
Qed.

Lemma self_method_returns {A}
  (f : BaseModel -> (lib_error + A) * BaseModel) a self self1 :
  self_method f self = (inr a, self1) ->
  (exists b', f (base self) = (inr a, b'))
  /\ dnn_linear self1 = dnn_linear self.
Proof.
  unfold self_method, lib. destruct (f (base self)) as [[e | a0] b'];
    intros H; inversion H.
  split; [exists b' |]; reflexivity.
Qed.

Lemma self_innerproduct_returns ts a self self1 :
  self_innerproduct ts self = (inr a, self1) ->
  dnn_linear self1 = dnn_linear self.
Proof.
  unfold self_innerproduct, lib. destruct (innerproduct self) as [layer |];
    [| discriminate].
  destruct (call_InnerProductLayer layer ts) as [[e | a0] layer'];
    intros H; inversion H. reflexivity.
Qed.

Lemma self_outterproduct_returns ts a self self1 :
  self_outterproduct ts self = (inr a, self1) ->
  dnn_linear self1 = dnn_linear self.
Proof.
  unfold self_outterproduct, lib. destruct (outterproduct self) as [layer |];
    [| discriminate].
  destruct (call_OutterProductLayer layer ts) as [[e | a0] layer'];
    intros H; inversion H. reflexivity.
Qed.

Lemma self_dnn_returns t a self self1 :
  self_dnn t self = (inr a, self1) ->
  (exists layer', call_DNN (dnn self) t = (inr a, layer'))
  /\ dnn_linear self1 = dnn_linear self.
Proof.
  unfold self_dnn, lib. destruct (call_DNN (dnn self) t) as [[e | a0] layer'];
    intros H; inversion H.
  split; [exists layer' |]; reflexivity.
Qed.

Lemma self_dnn_linear_returns t a self self1 :
  self_dnn_linear t self = (inr a, self1) ->
  exists layer', call_Linear (dnn_linear self) t = (inr a, layer').
Proof.
  unfold self_dnn_linear, lib.
  destruct (call_Linear (dnn_linear self) t) as [[e | a0] layer'];
    intros H; inversion H.
  exists layer'. reflexivity.
Qed.

End Returns.

(** Splits the hypotheses saying that a sequence of calls returned into one
    hypothesis per call. *)
Ltac returned :=
  repeat match goal with
    | H : bind _ _ _ = (inr _, _) |- _ =>
        apply bind_returns in H; destruct H as (? & ? & ? & ?)
    | H : ret _ _ = (inr _, _) |- _ =>
        apply ret_returns in H; destruct H as [? ?]; subst
    | H : attr _ _ = (inr _, _) |- _ =>
        apply attr_returns in H; destruct H as [? ?]; subst
    | H : torch _ _ = (inr _, _) |- _ =>
        apply torch_returns in H; destruct H as [? ?]; subst
    | H : py_in _ _ _ = (inr _, _) |- _ =>
        apply py_in_returns in H; subst
    | H : self_method _ _ = (inr _, _) |- _ =>
        apply self_method_returns in H; destruct H as [[? ?] ?]
    | H : self_innerproduct _ _ = (inr _, _) |- _ =>
        apply self_innerproduct_returns in H
    | H : self_outterproduct _ _ = (inr _, _) |- _ =>
        apply self_outterproduct_returns in H
    | H : self_dnn _ _ = (inr _, _) |- _ =>
        apply self_dnn_returns in H; destruct H as [[? ?] ?]
    | H : self_dnn_linear _ _ = (inr _, _) |- _ =>
        apply self_dnn_linear_returns in H; destruct H as [? ?]
    end.

Section Shapes.
Context {T : Types} {L : Library}.
Variable shape : tensor -> list Z.
Variables in_features out_features : Linear -> Z.
Hypothesis conv : ShapeConventions shape in_features out_features.

Lemma batched_matrix (n d : Z) (t : tensor) :
  shape t = [n; d] -> batched shape n t.
Proof. intros H. exists d, []. assumption. Qed.

Lemma stage_embeddings_shape X sparse dense self self1 n rest :
  stage_embeddings X self = (inr (sparse, dense), self1) ->
  shape X = n :: rest ->
  Forall (batched shape n) sparse /\ dnn_linear self1 = dnn_linear self.
Proof.
  unfold stage_embeddings. intros H HX. returned.
  split; [| assumption].
  eapply (input_from_feature_columns_shape _ _ _ conv); eassumption.
Qed.

Lemma meta_transformed_shape X sparse sparse' self self1 n :
  meta_transformed X sparse self = (inr sparse', self1) ->
  Forall (batched shape n) sparse ->
  Forall (batched shape n) sparse' /\ dnn_linear self1 = dnn_linear self.
Proof.
  unfold meta_transformed. intros H Hsparse. returned.
  split; [| assumption].
  match goal with
  | Hcat : torch_cat _ _ = inr _ |- _ =>
      destruct (torch_cat_shape _ _ _ conv _ _ n Hcat) as (t0 & ts' & -> & Hjoin)
  end.
  inversion Hsparse; subst.
  eapply (split_shape _ _ _ conv); [eassumption |].
  eapply (meta_transformation_shape _ _ _ conv); [eassumption |].
  auto.
Qed.

Lemma stage_meta_transformation_shape X sparse sparse' self self1 n :
  stage_meta_transformation X sparse self = (inr sparse', self1) ->
  Forall (batched shape n) sparse ->
  Forall (batched shape n) sparse' /\ dnn_linear self1 = dnn_linear self.
Proof.
  unfold stage_meta_transformation. intros H Hsparse. returned.
  match goal with
  | H0 : (if ?b then _ else _) _ = _ |- _ => destruct b
  end.
  - eapply meta_transformed_shape; eassumption.
  - returned. split; [assumption | reflexivity].
Qed.

Lemma linear_signal_shape sparse t self self1 n :
  signal_value sparse LinearSignal self = (inr t, self1) ->
  Forall (batched shape n) sparse ->
  batched shape n t /\ self1 = self.
Proof.
  simpl. intros H Hsparse. returned. split; [| reflexivity].
  match goal with
  | Hcat : concat_fun _ = inr _ |- _ =>
      destruct (concat_fun_shape _ _ _ conv _ _ n Hcat) as (t0 & ts' & -> & Hjoin)
  end.
  inversion Hsparse; subst.
  match goal with
  | Hflat : torch_flatten _ _ = inr _ |- _ =>
      destruct (torch_flatten_shape _ _ _ conv _ _ n Hflat) as [d Hd]; [auto |]
  end.
  eapply batched_matrix; eassumption.
Qed.

Lemma signal_value_keeps_linear sparse s t self self1 :
  signal_value sparse s self = (inr t, self1) ->
  dnn_linear self1 = dnn_linear self.
Proof.
  destruct s; simpl; intros H; returned; try reflexivity; assumption.
Qed.

Lemma concatenation_shape t0 ts t self self1 n :
  concatenation (t0 :: ts) self = (inr t, self1) ->
  batched shape n t0 ->
  batched shape n t /\ self1 = self.
Proof.
  unfold concatenation. intros H Ht0.
  destruct ts as [| t1 ts]; returned.
  - split; [assumption | reflexivity].
  - split; [| reflexivity].
    match goal with
    | Hcat : torch_cat _ _ = inr _ |- _ =>
        destruct (torch_cat_shape _ _ _ conv _ _ n Hcat)
          as (t0' & ts' & Heq & Hjoin)
    end.
    inversion Heq; subst. auto.
Qed.

Lemma for_each_keeps_linear sparse terms values self self1 :
  for_each (signal_value sparse) terms self = (inr values, self1) ->
  dnn_linear self1 = dnn_linear self.
Proof.
  revert values self self1.
  induction terms as [| s terms IH]; simpl; intros values self self1 H.
  - returned. reflexivity.
  - returned.
    match goal with
    | H1 : signal_value _ _ _ = _, H2 : for_each _ _ _ = _ |- _ =>
        apply signal_value_keeps_linear in H1; apply IH in H2; congruence
    end.
Qed.

Lemma stage_product_layer_shape inner outter sparse t self self1 n :
  stage_product_layer (selected inner outter) sparse self = (inr t, self1) ->
  Forall (batched shape n) sparse ->
  batched shape n t /\ dnn_linear self1 = dnn_linear self.
Proof.
  unfold stage_product_layer, selected. intros H Hsparse.
  apply bind_returns in H. destruct H as (values & self0 & Hvalues & Hcat).
  cbn [for_each app] in Hvalues.
  apply bind_returns in Hvalues.
  destruct Hvalues as (l & self' & Hlinear & Hrest).
  apply linear_signal_shape with (n := n) in Hlinear; [| assumption].
  destruct Hlinear as [Hl ->].
  apply bind_returns in Hrest. destruct Hrest as (ys & self2 & Hys & Hret).
  apply ret_returns in Hret. destruct Hret as [-> ->].
  apply for_each_keeps_linear in Hys.
  apply concatenation_shape with (n := n) in Hcat; [| assumption].
  destruct Hcat as [Ht ->]. split; assumption.
Qed.

Lemma stage_dense_network_shape product_layer dense t self self1 n :
  stage_dense_network product_layer dense self = (inr t, self1) ->
  batched shape n product_layer ->
  (exists h, shape t = [n; h]) /\ dnn_linear self1 = dnn_linear self.
Proof.
  unfold stage_dense_network. intros H Hpl. returned.
  split; [| assumption].
  match goal with
  | Hc : combined_dnn_input _ _ = inr _ |- _ =>
      destruct (combined_dnn_input_shape _ _ _ conv _ _ _ n Hc Hpl) as [d Hd]
  end.
  eapply (call_DNN_shape _ _ _ conv); eassumption.
Qed.

Lemma pipeline_shape inner outter X y self self1 n rest :
  pipeline_with (selected inner outter) X self = (inr y, self1) ->
  shape X = n :: rest ->
  shape y = [n; out_features (dnn_linear self)].
Proof.
  unfold pipeline_with, from_embeddings, stage_linear_output,
    stage_activation.
  intros H HX.
  apply bind_returns in H. destruct H as ([sparse dense] & s1 & H1 & H).
  apply bind_returns in H. destruct H as (sparse' & s2 & H2 & H).
  apply bind_returns in H. destruct H as (pl & s3 & H3 & H).
  apply bind_returns in H. destruct H as (hidden & s4 & H4 & H).
  apply bind_returns in H. destruct H as (logit & s5 & H5 & H).
  apply stage_embeddings_shape with (n := n) (rest := rest) in H1;
    [| assumption].
  destruct H1 as [Hsparse E1].
  apply stage_meta_transformation_shape with (n := n) in H2; [| assumption].
  destruct H2 as [Hsparse' E2].
  apply stage_product_layer_shape with (n := n) in H3; [| assumption].
  destruct H3 as [Hpl E3].
  apply stage_dense_network_shape with (n := n) in H4; [| assumption].
  destruct H4 as [[h Hh] E4].
  returned.
  match goal with
  | Ho : out _ _ = (inr _, _), Hl : call_Linear _ _ = (inr _, _) |- _ =>
      rewrite (out_shape _ _ _ conv _ _ _ _ Ho);
      rewrite (call_Linear_shape _ _ _ conv _ _ _ _ _ _ Hl Hh)
  end.
  congruence.
Qed.

Lemma init_linear_features (a : Args.t) (self : PNN) :
  __init__ a = inr self ->
  Py.last_item (Args.dnn_hidden_units a) = Some (in_features (dnn_linear self))
  /\ out_features (dnn_linear self) = 1.
Proof.
  unfold __init__. intros Hinit.
  apply bindE_returns in Hinit. destruct Hinit as (self0 & Hattr & Hinit).
  apply lib_returns in Hinit.
  destruct (Module_to_PNN _ _ _ conv _ _ _ Hinit) as [-> ->].
  unfold init_attributes in Hattr.
  repeat (apply bindE_returns in Hattr; destruct Hattr as (? & ? & Hattr)).
  repeat match goal with
    | H0 : lib _ = inr _ |- _ => apply lib_returns in H0
    end.
  inversion Hattr. subst self0. simpl.
  match goal with
  | Hto : Module_to _ _ = inr ?l, Hnew : new_Linear ?u 1 _ = inr _,
    Hlast : last_hidden_unit _ = inr ?u |- _ =>
      destruct (Module_to_Linear _ _ _ conv _ _ _ Hto) as [-> ->];
      destruct (new_Linear_features _ _ _ conv _ _ _ _ Hnew) as [-> ->];
      unfold last_hidden_unit in Hlast;
      destruct (Py.last_item (Args.dnn_hidden_units a));
      inversion Hlast; split; reflexivity
  end.
Qed.

(** C2. Under the shape conventions of the tensor library, a model built
    by [__init__] ends in a linear layer from the last hidden dimension of
    the dense network to a single output, and for every batch [X] of [n]
    rows the prediction that [forward] returns has shape [n; 1]: [n] rows
    and one column. *)
Theorem forward_output_shape (a : Args.t) (self : PNN) (X y : tensor)
  (n : Z) (rest : list Z) :
  __init__ a = inr self ->
  shape X = n :: rest ->
  fst (forward X self) = inr y ->
  Py.last_item (Args.dnn_hidden_units a) = Some (in_features (dnn_linear self))
  /\ out_features (dnn_linear self) = 1
  /\ shape y = [n; 1].
Proof.
  intros Hinit HX Hy.
  destruct (init_linear_features _ _ Hinit) as [Hin Hout].
  split; [assumption |]. split; [assumption |].
  destruct (forward X self) as [r self1] eqn:Hrun. simpl in Hy. subst r.
  rewrite forward_pipeline_with in Hrun.
  rewrite (pipeline_shape _ _ _ _ _ _ _ _ Hrun HX), Hout. reflexivity.
Qed.

End Shapes.

(** ** True division of integers *)

Module FloatFacts.
Import Py.

Lemma pow2_nonpos (e : Z) : e <= 0 -> pow2 e = 1.
Proof. intros He. unfold pow2. rewrite Z.max_r by assumption. reflexivity. Qed.

Lemma pow2_nonneg (e : Z) : 0 <= e -> pow2 e = 2 ^ e.
Proof. intros He. unfold pow2. rewrite Z.max_l by assumption. reflexivity. Qed.

Lemma pow2_pos (e : Z) : 0 < pow2 e.
Proof. unfold pow2. apply Z.pow_pos_nonneg; lia. Qed.

Lemma pow2_le (e k : Z) : 0 <= k -> e <= k -> pow2 e <= 2 ^ k.
Proof.
  intros Hk He. unfold pow2. apply Z.pow_le_mono_r; lia.
Qed.

Lemma round_half_even_exact (q d : Z) :
  0 < d -> round_half_even (d * q) d = q.
Proof.
  intros Hd. unfold round_half_even.
  rewrite (Z.mul_comm d q), Z.div_mul, Z.mod_mul by lia.
  destruct (2 * 0 <? d) eqn:Hlt; [reflexivity |].
  apply Z.ltb_ge in Hlt. lia.
Qed.

Lemma round_half_even_le (n d : Z) :
  0 <= n -> 0 < d -> 0 <= round_half_even n d <= n + 1.
Proof.
  intros Hn Hd. unfold round_half_even.
  assert (Hq : 0 <= n / d <= n).
  { split; [apply Z.div_pos; lia |].
    apply Z.div_le_upper_bound; [lia | nia]. }
  destruct (2 * (n mod d) <? d); [lia |].
  destruct (d <? 2 * (n mod d)); [lia |].
  destruct (Z.even (n / d)); lia.
Qed.

(** Halving an even integer below 2^54 is exact. *)
Lemma int_truediv_half (c : Z) :
  0 < c -> 2 * c < 2 ^ 54 ->
  exists x, int_truediv (2 * c) 2 = Quotient x /\ int_of_float x = c.
Proof.
  intros Hc Hlt.
  set (a := 2 * c) in *.
  assert (Ha : 0 < a) by lia.
  pose proof (Z.log2_spec a Ha) as [Hlo Hhi].
  assert (Hl1 : 1 <= Z.log2 a).
  { change 1 with (Z.log2 2). apply Z.log2_le_mono. lia. }
  assert (Hl2 : Z.log2 a < 54) by (apply Z.log2_lt_pow2; lia).
  set (lg := Z.log2 a) in *.
  assert (Hulp : ulp_exponent a 2 = lg - 53).
  { unfold ulp_exponent. change (Z.log2 2) with 1. fold lg.
    rewrite (pow2_nonneg (lg - 1)) by lia.
    rewrite (pow2_nonpos (- (lg - 1))) by lia.
    replace (2 * 2 ^ (lg - 1)) with (2 ^ lg).
    2:{ replace lg with (Z.succ (lg - 1)) at 1 by lia.
        rewrite Z.pow_succ_r by lia. reflexivity. }
    destruct (2 ^ lg <=? a * 1) eqn:Hle; [lia |].
    apply Z.leb_gt in Hle. lia. }
  set (P := 2 ^ (53 - lg)).
  assert (HP : 0 < P) by (apply Z.pow_pos_nonneg; lia).
  assert (HcP : c * P < 2 ^ 53).
  { assert (2 * (c * P) < 2 * 2 ^ 53); [| lia].
    replace (2 * 2 ^ 53) with (2 ^ Z.succ lg * P).
    - fold a in Hhi. nia.
    - unfold P. rewrite <- Z.pow_add_r by lia.
      replace (Z.succ lg + (53 - lg)) with 54 by lia. reflexivity. }
  unfold int_truediv.
  replace (2 =? 0) with false by reflexivity.
  destruct (a =? 0) eqn:Hz; [apply Z.eqb_eq in Hz; lia |].
  rewrite (Z.abs_eq a) by lia. change (Z.abs 2) with 2.
  rewrite Hulp.
  rewrite (pow2_nonpos (lg - 53)) by lia.
  rewrite (pow2_nonneg (- (lg - 53))) by lia.
  replace (- (lg - 53)) with (53 - lg) by lia. fold P.
  replace (a * P) with ((2 * 1) * (c * P)) by (unfold a; ring).
  rewrite round_half_even_exact by lia.
  destruct (2 ^ 1024 <=? c * P * 1) eqn:Hover.
  { apply Z.leb_le in Hover.
    assert (2 ^ 53 < 2 ^ 1024) by (apply Z.pow_lt_mono_r; lia). lia. }
  eexists. split; [reflexivity |].
  unfold int_of_float. simpl mant. simpl expo.
  rewrite (Z.sgn_pos a) by lia. change (Z.sgn 2) with 1.
  destruct (0 <=? lg - 53) eqn:He.
  - apply Z.leb_le in He. assert (lg = 53) by lia.
    unfold P. replace (53 - lg) with 0 by lia. replace (lg - 53) with 0 by lia.
    rewrite !Z.pow_0_r. ring.
  - replace (- (lg - 53)) with (53 - lg) by lia. fold P.
    replace (1 * 1 * (c * P)) with (c * P) by ring.
    apply Z.quot_mul. lia.
Qed.

(** No overflow when halving an integer below 2^126. *)
Lemma int_truediv_2_finite (a : Z) :
  0 <= a < 2 ^ 126 -> exists x, int_truediv a 2 = Quotient x.
Proof.
  intros [Ha0 Ha]. unfold int_truediv.
  replace (2 =? 0) with false by reflexivity.
  destruct (a =? 0) eqn:Hz; [eexists; reflexivity |].
  apply Z.eqb_neq in Hz. assert (Hpos : 0 < a) by lia.
  rewrite (Z.abs_eq a) by lia. change (Z.abs 2) with 2.
  assert (Hl0 : 0 <= Z.log2 a) by apply Z.log2_nonneg.
  assert (Hl1 : Z.log2 a < 126) by (apply Z.log2_lt_pow2; lia).
  set (e := ulp_exponent a 2).
  assert (He : -54 <= e <= 73).
  { unfold e, ulp_exponent. change (Z.log2 2) with 1.
    destruct (2 * pow2 (Z.log2 a - 1) <=? a * pow2 (- (Z.log2 a - 1))); lia. }
  set (m := round_half_even (a * pow2 (- e)) (2 * pow2 e)).
  pose proof (pow2_pos e) as Hpe. pose proof (pow2_pos (- e)) as Hpne.
  pose proof (pow2_le e 73 ltac:(lia) ltac:(lia)) as Hpe'.
  pose proof (pow2_le (- e) 54 ltac:(lia) ltac:(lia)) as Hpne'.
  assert (Hm : 0 <= m <= a * pow2 (- e) + 1)
    by (apply round_half_even_le; nia).
  destruct (2 ^ 1024 <=? m * pow2 e) eqn:Hover; [| eexists; reflexivity].
  apply Z.leb_le in Hover. exfalso.
  assert (H1 : a * pow2 (- e) <= 2 ^ 126 * 2 ^ 54) by nia.
  assert (H2 : m * pow2 e <= (2 ^ 126 * 2 ^ 54 + 1) * 2 ^ 73) by nia.
  assert (H3 : (2 ^ 126 * 2 ^ 54 + 1) * 2 ^ 73 < 2 ^ 1024) by (vm_compute; reflexivity).
  lia.
Qed.

End FloatFacts.

(** ** The constructor *)

Section Constructor.
Context {T : Types} {L : Library}.

Lemma bindE_raises {A B} (c : E A) (k : A -> E B) (e : exn) :
  bindE c k = inl e ->
  c = inl e \/ exists a, c = inr a /\ k a = inl e.
Proof.
  unfold bindE. destruct c as [e0 | a]; intros Hrun.
  - left. inversion Hrun. reflexivity.
  - right. exists a. split; [reflexivity | assumption].
Qed.

Lemma lib_raises {A} (r : lib_error + A) (e : exn) :
  lib r = inl e -> raised_here e = false.
Proof.
  unfold lib. destruct r; intros Hrun; inversion Hrun. reflexivity.
Qed.

Lemma num_pairs_raises (n : Z) (e : exn) :
  num_pairs n = inl e -> e = OverflowError.
Proof.
  unfold num_pairs, Py.int_truediv.
  replace (2 =? 0) with false by reflexivity.
  destruct (n * (n - 1) =? 0); [discriminate |].
  match goal with
  | |- context [if ?c then _ else _] => destruct c
  end; intros Hrun; inversion Hrun. reflexivity.
Qed.

Lemma num_pairs_small (n : Z) :
  0 <= n < 2 ^ 63 -> exists p, num_pairs n = inr p.
Proof.
  intros Hn. unfold num_pairs.
  destruct (FloatFacts.int_truediv_2_finite (n * (n - 1))) as [x Hx].
  - assert (2 ^ 63 * 2 ^ 63 = 2 ^ 126) by reflexivity. nia.
  - rewrite Hx. eexists. reflexivity.
Qed.

Lemma even_product (n : Z) : n * (n - 1) = 2 * (n * (n - 1) / 2).
Proof.
  assert (Hmod : (n * (n - 1)) mod 2 = 0).
  { rewrite Z.mul_mod by lia.
    assert (Hcase : n mod 2 = 0 \/ n mod 2 = 1)
      by (pose proof (Z.mod_pos_bound n 2); lia).
    destruct Hcase as [H0 | H1].
    - rewrite H0. reflexivity.
    - replace ((n - 1) mod 2) with 0; [rewrite Z.mul_0_r; reflexivity |].
      rewrite Zminus_mod, H1. reflexivity. }
  pose proof (Z.div_mod (n * (n - 1)) 2) as Hdiv. lia.
Qed.

(** What the constructor can raise once the kernel type is accepted: an
    exception of the called code, OverflowError on line 49, or IndexError on
    line 65 after [DNN] took an empty [dnn_hidden_units]. *)
Lemma init_raises (a : Args.t) (e : exn) :
  In (Args.kernel_type a) kernel_types ->
  __init__ a = inl e ->
  raised_here e = false
  \/ (e = OverflowError
      /\ exists b n,
           compute_input_dim b (Args.dnn_feature_columns a) false true = inr n
           /\ num_pairs n = inl OverflowError)
  \/ (e = IndexError
      /\ Args.dnn_hidden_units a = []
      /\ exists i layer,
           new_DNN i [] (Args.dnn_activation a) (Args.l2_reg_dnn a)
             (Args.dnn_dropout a) false (Args.init_std a) (Args.device a)
           = inr layer).
Proof.
  intros Hvalid. apply PyFacts.str_in_list_In in Hvalid.
  unfold __init__. intros Hrun.
  apply bindE_raises in Hrun.
  destruct Hrun as [Hrun | (? & _ & Hrun)];
    [| left; eapply lib_raises; eassumption].
  unfold init_attributes in Hrun. rewrite Hvalid in Hrun.
  simpl negb in Hrun. cbv iota in Hrun.
  apply bindE_raises in Hrun.
  destruct Hrun as [Hrun | (b & _ & Hrun)];
    [left; eapply lib_raises; eassumption |].
  apply bindE_raises in Hrun.
  destruct Hrun as [Hrun | (_ & _ & Hrun)]; [discriminate |].
  apply bindE_raises in Hrun.
  destruct Hrun as [Hrun | (n & Hn & Hrun)];
    [left; eapply lib_raises; eassumption |].
  apply lib_returns in Hn.
  apply bindE_raises in Hrun.
  destruct Hrun as [Hrun | (p & _ & Hrun)].
  { right. left. pose proof (num_pairs_raises _ _ Hrun) as ->.
    split; [reflexivity |]. exists b, n. split; assumption. }
  apply bindE_raises in Hrun.
  destruct Hrun as [Hrun | (ip & _ & Hrun)].
  { left. destruct (Args.use_inner a); [| discriminate].
    apply bindE_raises in Hrun.
    destruct Hrun as [Hrun | (? & _ & Hrun)];
      [eapply lib_raises; eassumption | discriminate]. }
  apply bindE_raises in Hrun.
  destruct Hrun as [Hrun | (op & _ & Hrun)].
  { left. destruct (Args.use_outter a); [| discriminate].
    apply bindE_raises in Hrun.
    destruct Hrun as [Hrun | (? & _ & Hrun)];
      [eapply lib_raises; eassumption |].
    apply bindE_raises in Hrun.
    destruct Hrun as [Hrun | (? & _ & Hrun)];
      [eapply lib_raises; eassumption | discriminate]. }
  apply bindE_raises in Hrun.
  destruct Hrun as [Hrun | (d & _ & Hrun)];
    [left; eapply lib_raises; eassumption |].
  apply bindE_raises in Hrun.
  destruct Hrun as [Hrun | (layer & Hlayer & Hrun)];
    [left; eapply lib_raises; eassumption |].
  apply lib_returns in Hlayer.
  apply bindE_raises in Hrun.
  destruct Hrun as [Hrun | (units & _ & Hrun)].
  { right. right. unfold last_hidden_unit in Hrun.
    destruct (Args.dnn_hidden_units a) as [| h hs] eqn:Hunits.
    - inversion Hrun. split; [reflexivity |]. split; [reflexivity |].
      eexists. eexists. eassumption.
    - destruct (Py.last_item (h :: hs)) eqn:Hlast; [discriminate |].
      exfalso. clear - Hlast. revert h Hlast.
      induction hs as [| h' hs IH]; intros h Hlast; [discriminate |].
      apply (IH h'). exact Hlast. }
  repeat (apply bindE_raises in Hrun;
          destruct Hrun as [Hrun | (? & _ & Hrun)];
          [left; eapply lib_raises; eassumption |]).
  discriminate.
Qed.

Lemma init_rejects (a : Args.t) (b : BaseModel) :
  BaseModel_init (super_args a) = inr b ->
  ~ In (Args.kernel_type a) kernel_types ->
  __init__ a = inl (ValueError "kernel_type must be mat,vec or num").
Proof.
  intros Hsuper Hinvalid. unfold __init__, init_attributes.
  rewrite Hsuper.
  destruct (Py.str_in_list (Args.kernel_type a) kernel_types) eqn:Hin.
  - apply PyFacts.str_in_list_In in Hin. contradiction.
  - reflexivity.
Qed.

Lemma init_accepts (a : Args.t) (msg : string) :
  In (Args.kernel_type a) kernel_types ->
  __init__ a <> inl (ValueError msg).
Proof.
  intros Hvalid Hrun.
  destruct (init_raises _ _ Hvalid Hrun) as [H0 | [[H0 _] | [H0 _]]];
    discriminate.
Qed.

Lemma init_base_raises (a : Args.t) (e : lib_error) :
  BaseModel_init (super_args a) = inl e -> __init__ a = inl (LibraryError e).
Proof.
  intros Hsuper. unfold __init__, init_attributes. rewrite Hsuper.
  reflexivity.
Qed.

(** What a call with a kernel type outside 'mat', 'vec' and 'num' does:
    it returns no model; it raises the ValueError of line 40 when
    [super().__init__] (line 35) returned, and the exception of that call
    when it raised. *)
Lemma init_invalid_kernel_type (a : Args.t) :
  ~ In (Args.kernel_type a) kernel_types ->
  (forall self, __init__ a <> inr self)
  /\ (forall b,
         BaseModel_init (super_args a) = inr b ->
         __init__ a = inl (ValueError "kernel_type must be mat,vec or num"))
  /\ (forall e,
         BaseModel_init (super_args a) = inl e ->
         __init__ a = inl (LibraryError e)).
Proof.
  intros Hinvalid. split; [| split].
  - intros self Hrun.
    destruct (BaseModel_init (super_args a)) as [e | b] eqn:Hsuper.
    + rewrite (init_base_raises _ _ Hsuper) in Hrun. discriminate.
    + rewrite (init_rejects _ _ Hsuper Hinvalid) in Hrun. discriminate.
  - intros b Hsuper. exact (init_rejects _ _ Hsuper Hinvalid).
  - intros e Hsuper. exact (init_base_raises _ _ Hsuper).
Qed.

(** C1, with the base class taken into account.  Whatever the other
    arguments are, a constructor call with a [kernel_type] other than
    'mat', 'vec' and 'num' returns no model: it raises the ValueError of
    line 40 when [super().__init__] (line 35) returned, and the exception
    of [super().__init__] when that call raised.  So the constructor
    raises this ValueError exactly when the kernel type is outside the set
    and the base class was initialised.  With a kernel type in the set the
    validation passes: the constructor raises no ValueError of its own. *)
Theorem kernel_type_is_validated (a : Args.t) :
  (~ In (Args.kernel_type a) ["mat"; "vec"; "num"] ->
   (forall self, __init__ a <> inr self)
   /\ (forall b,
          BaseModel_init (super_args a) = inr b ->
          __init__ a = inl (ValueError "kernel_type must be mat,vec or num"))
   /\ (forall e,
          BaseModel_init (super_args a) = inl e ->
          __init__ a = inl (LibraryError e)))
  /\ (__init__ a = inl (ValueError "kernel_type must be mat,vec or num")
      <-> ~ In (Args.kernel_type a) ["mat"; "vec"; "num"]
          /\ exists b, BaseModel_init (super_args a) = inr b)
  /\ (In (Args.kernel_type a) ["mat"; "vec"; "num"] ->
      forall msg, __init__ a <> inl (ValueError msg)).
Proof.
  split; [exact (init_invalid_kernel_type a) |]. split; [split |].
  - intros Hrun. split.
    + intros Hvalid. exact (init_accepts _ _ Hvalid Hrun).
    + destruct (BaseModel_init (super_args a)) as [e | b] eqn:Hsuper.
      * rewrite (init_base_raises _ _ Hsuper) in Hrun. discriminate.
      * exists b. reflexivity.
  - intros [Hinvalid [b Hsuper]]. exact (init_rejects _ _ Hsuper Hinvalid).
  - intros Hvalid msg. apply init_accepts. exact Hvalid.
Qed.

Lemma init_attributes_without_outter (a : Args.t) (self : PNN) :
  Args.use_outter a = false ->
  init_attributes a = inr self -> outterproduct self = None.
Proof.
  intros Houtter Hattr. unfold init_attributes in Hattr.
  rewrite Houtter in Hattr.
  repeat (apply bindE_returns in Hattr; destruct Hattr as (? & ? & Hattr)).
  inversion Hattr. simpl.
  match goal with
  | Hnone : retE None = inr ?o |- ?o = None => inversion Hnone; reflexivity
  end.
Qed.

(** C9, with the base class taken into account.  The kernel type is
    checked before the toggles are looked at.  A constructor call with
    [use_outter] False and a kernel type other than 'mat', 'vec' and 'num'
    returns no model: it raises the ValueError of line 40 when
    [super().__init__] returned, and the exception of [super().__init__]
    when that call raised.  Yet only the outer-product layer takes the
    kernel type, and a call with [use_outter] False builds none:
    [self.outterproduct] is never assigned. *)
Theorem kernel_type_is_validated_without_outter (a : Args.t) :
  Args.use_outter a = false ->
  (~ In (Args.kernel_type a) ["mat"; "vec"; "num"] ->
   (forall self, __init__ a <> inr self)
   /\ (forall b,
          BaseModel_init (super_args a) = inr b ->
          __init__ a = inl (ValueError "kernel_type must be mat,vec or num"))
   /\ (forall e,
          BaseModel_init (super_args a) = inl e ->
          __init__ a = inl (LibraryError e)))
  /\ (forall self, init_attributes a = inr self -> outterproduct self = None).
Proof.
  intros Houtter. split.
  - exact (init_invalid_kernel_type a).
  - intros self. apply init_attributes_without_outter. exact Houtter.
Qed.

(** C6. With a kernel type among 'mat', 'vec' and 'num', and a library in
    which [DNN] rejects an empty [dnn_hidden_units] and the number of
    feature groups of the columns is a container length (below 2^63),
    every exception that leaves the constructor was raised inside the
    called code: the file validates nothing else and raises nothing of its
    own. *)
Theorem init_raises_only_library_errors (a : Args.t) (e : exn) :
  In (Args.kernel_type a) ["mat"; "vec"; "num"] ->
  (forall i act l2 dropout bn std device layer,
      new_DNN i [] act l2 dropout bn std device <> inr layer) ->
  (forall b n,
      compute_input_dim b (Args.dnn_feature_columns a) false true = inr n ->
      0 <= n < 2 ^ 63) ->
  __init__ a = inl e ->
  exists le, e = LibraryError le.
Proof.
  intros Hvalid Hdnn Hdim Hrun.
  destruct (init_raises _ _ Hvalid Hrun)
    as [Hlib | [[_ (b & n & Hn & Hover)] | [_ [_ (i & layer & Hnew)]]]].
  - destruct e; try discriminate. eexists. reflexivity.
  - destruct (num_pairs_small n (Hdim _ _ Hn)) as [p Hp].
    rewrite Hp in Hover. discriminate.
  - exfalso. exact (Hdnn _ _ _ _ _ _ _ _ Hnew).
Qed.

(** C10, on the range where the division is exact.  For every number of
    feature groups from 0 to 134217729 (2^27 + 1),
    [int(num_inputs * (num_inputs - 1) / 2)] is the exact number of pairs
    [num_inputs * (num_inputs - 1) / 2]: the division loses nothing. *)
Theorem num_pairs_exact (n : Z) :
  0 <= n <= 134217729 -> num_pairs n = inr (n * (n - 1) / 2).
Proof.
  intros Hn.
  assert (Hcase : n = 0 \/ n = 1 \/ n = 134217729 \/ 2 <= n <= 134217728)
    by lia.
  destruct Hcase as [-> | [-> | [-> | Hmid]]];
    [vm_compute; reflexivity .. |].
  unfold num_pairs. rewrite (even_product n) at 1.
  destruct (FloatFacts.int_truediv_half (n * (n - 1) / 2)) as (x & Hx & Hint).
  - pose proof (even_product n). nia.
  - rewrite <- even_product.
    assert (134217728 * 134217728 = 2 ^ 54) by reflexivity. nia.
  - rewrite Hx. unfold retE. rewrite Hint. reflexivity.
Qed.

End Constructor.

(** ** The library of shapes meets the assumptions *)

Module ShapeLibFacts.
Import ShapeLib.

Lemma normalize_1 (k : nat) : normalize 1 (S (S k)) = Some 1%nat.
Proof.
  unfold normalize. change (1 <? 0) with false. cbv iota.
  replace (1 <? Z.of_nat (S (S k))) with true
    by (symmetry; apply Z.ltb_lt; lia).
  reflexivity.
Qed.

Lemma normalize_last (k : nat) : normalize (-1) (S (S k)) = Some (S k).
Proof.
  unfold normalize. change (-1 <? 0) with true. cbv iota.
  replace (0 <=? -1 + Z.of_nat (S (S k))) with true
    by (symmetry; apply Z.leb_le; lia).
  replace (-1 + Z.of_nat (S (S k)) <? Z.of_nat (S (S k))) with true
    by (symmetry; apply Z.ltb_lt; lia).
  simpl andb. cbv iota. f_equal. lia.
Qed.

Lemma cat2_nonempty (d : nat) (x : Z) (r s t : list Z) :
  cat2 d (x :: r) s = Some t -> exists x' r', t = x' :: r'.
Proof.
  destruct d as [| d']; destruct s as [| y r2]; simpl; try discriminate.
  - destruct (shape_eqb r r2); intros Hcat; inversion Hcat. eauto.
  - destruct (x =? y); [| discriminate].
    destruct (cat2 d' r r2); intros Hcat; inversion Hcat. eauto.
Qed.

Lemma cat2_batched (d : nat) (n : Z) (a s t : list Z) :
  cat2 (S d) a s = Some t ->
  batched (T := types) shape n a -> batched (T := types) shape n t.
Proof.
  intros Hcat (x & r & Ha). unfold shape in Ha. subst a.
  destruct s as [| y r2]; [discriminate |]. simpl in Hcat.
  destruct (n =? y); [| discriminate].
  destruct (cat2 d (x :: r) r2) as [t' |] eqn:Hrest; [| discriminate].
  apply cat2_nonempty in Hrest. destruct Hrest as (x' & r' & ->).
  inversion Hcat. exists x', r'. reflexivity.
Qed.

Lemma fold_cat_none (d : nat) (rest : list (list Z)) :
  fold_left (cat_step d) rest None = None.
Proof. induction rest; simpl; auto. Qed.

Lemma fold_cat_batched (d : nat) (n : Z) (rest : list (list Z)) :
  forall a t,
    fold_left (cat_step (S d)) rest (Some a) = Some t ->
    batched (T := types) shape n a -> batched (T := types) shape n t.
Proof.
  induction rest as [| s rest IH]; cbn [fold_left cat_step];
    intros a t Hfold Ha.
  - inversion Hfold. subst. assumption.
  - destruct (cat2 (S d) a s) as [a' |] eqn:Hcat.
    + eapply IH; [eassumption |]. eapply cat2_batched; eassumption.
    + rewrite fold_cat_none in Hfold. discriminate.
Qed.

Lemma cat_batched (dim : Z) (n : Z) (t0 t : list Z) (rest : list (list Z)) :
  dim = 1 \/ dim = -1 ->
  cat (t0 :: rest) dim = inr t ->
  batched (T := types) shape n t0 -> batched (T := types) shape n t.
Proof.
  intros Hdim Hcat Ht0. pose proof Ht0 as (x & r & Hshape).
  unfold shape in Hshape. subst t0. unfold cat in Hcat.
  change (List.length (n :: x :: r)) with (S (S (List.length r))) in Hcat.
  destruct Hdim as [-> | ->].
  - rewrite normalize_1 in Hcat.
    destruct (fold_left (cat_step 1) rest (Some (n :: x :: r)))
      as [t' |] eqn:Hfold; inversion Hcat; subst.
    eapply fold_cat_batched; eassumption.
  - rewrite normalize_last in Hcat.
    destruct (fold_left (cat_step (S (List.length r))) rest
                (Some (n :: x :: r)))
      as [t' |] eqn:Hfold; inversion Hcat; subst.
    eapply fold_cat_batched; eassumption.
Qed.

Lemma cat_one (dim : Z) (t0 : list Z) (k : nat) :
  dim = 1 \/ dim = -1 -> List.length t0 = S (S k) -> cat [t0] dim = inr t0.
Proof.
  intros Hdim Hlen. unfold cat. rewrite Hlen.
  destruct Hdim as [-> | ->];
    [rewrite normalize_1 | rewrite normalize_last]; reflexivity.
Qed.

Lemma flatten1_matrix (n : Z) (t t' : list Z) :
  flatten1 t = inr t' -> batched (T := types) shape n t ->
  exists d, t' = [n; d].
Proof.
  intros Hflat (x & r & Hshape). unfold shape in Hshape. subst t.
  inversion Hflat. eauto.
Qed.

Lemma combined_matrix (pl t : list Z) (dense : list (list Z)) (n : Z) :
  combined [pl] dense = inr t -> batched (T := types) shape n pl ->
  exists d, t = [n; d].
Proof.
  intros Hcomb (x & r & Hshape). unfold shape in Hshape.
  assert (Hflat : flat_cat [pl] = inr [n; fold_right Z.mul 1 (x :: r)]).
  { unfold flat_cat.
    rewrite (cat_one (-1) pl (List.length r)); [| auto | subst; reflexivity].
    subst pl. reflexivity. }
  unfold combined in Hcomb. rewrite Hflat in Hcomb.
  destruct dense as [| d0 dense]; [inversion Hcomb; eauto |].
  destruct (flat_cat (d0 :: dense)) as [e | dd]; [discriminate |].
  unfold concat, cat in Hcomb.
  change (normalize (-1) (List.length [n; fold_right Z.mul 1 (x :: r)]))
    with (Some 1%nat) in Hcomb.
  cbn [fold_left cat_step] in Hcomb.
  destruct dd as [| y [| y2 [| y3 dd]]]; cbn [cat2 option_map] in Hcomb;
    try discriminate.
  - destruct (n =? y); discriminate.
  - destruct (n =? y); [| discriminate]. inversion Hcomb. eauto.
  - destruct (n =? y); discriminate.
Qed.

Lemma read_only_calls : @ReadOnlyCalls types library.
Proof.
  split; simpl; intros.
  - unfold lookup.
    repeat match goal with
      | |- context [match ?c with _ => _ end] => destruct c
      end; reflexivity.
  - reflexivity.
  - reflexivity.
  - unfold inner.
    repeat match goal with
      | |- context [match ?c with _ => _ end] => destruct c
      end; reflexivity.
  - unfold outter.
    repeat match goal with
      | |- context [match ?c with _ => _ end] => destruct c
      end; reflexivity.
  - unfold dense_net.
    repeat match goal with
      | |- context [match ?c with _ => _ end] => destruct c
      end; reflexivity.
  - unfold linear.
    repeat match goal with
      | |- context [match ?c with _ => _ end] => destruct c
      end; reflexivity.
Qed.

Lemma lookup_keeps_flag (b : base_model) (X : list Z)
  (columns : list column) (dict : unit) :
  b_flag (snd (lookup b X columns dict)) = b_flag b.
Proof.
  rewrite (input_from_feature_columns_reads read_only_calls). reflexivity.
Qed.

Lemma lookup_from_batched (n width : Z) (rest : list Z) (start : Z)
  (columns : list column) :
  Forall (batched (T := types) shape n)
    (fst (lookup_from n width rest start columns)).
Proof.
  revert start. induction columns as [| [e | d] columns' IH]; intros start;
    cbn [lookup_from].
  - constructor.
  - specialize (IH (start + 1)).
    destruct (lookup_from n width rest (start + 1) columns') as [sparse dense].
    cbn [fst] in *. constructor; [| exact IH].
    eexists. eexists. reflexivity.
  - specialize (IH (start + d)).
    destruct (lookup_from n width rest (start + d) columns') as [sparse dense].
    exact IH.
Qed.

Lemma shape_conventions :
  @ShapeConventions types library shape in_features out_features.
Proof.
  split; simpl.
  - intros b X columns dict sparse dense b' n rest Hcall HX.
    unfold shape in HX. subst X. unfold lookup in Hcall.
    destruct columns as [| c columns']; [inversion Hcall; constructor |].
    destruct rest as [| w rest']; [discriminate |].
    assert (Hlookup : lookup_from n w rest' 0 (c :: columns')
                      = (sparse, dense)) by congruence.
    pose proof (lookup_from_batched n w rest' 0 (c :: columns')) as Hall.
    rewrite Hlookup in Hall. exact Hall.
  - intros ts t n Hcat. destruct ts as [| t0 ts']; [discriminate |].
    exists t0, ts'. split; [reflexivity |].
    intros Ht0.
    eapply cat_batched; [left; reflexivity | eassumption | assumption].
  - intros b X t t' b' n Hcall Ht. inversion Hcall. subst. assumption.
  - intros t ts n Hsplit (x & r & Hshape). unfold shape in Hshape. subst t.
    unfold split1 in Hsplit. simpl in Hsplit. inversion Hsplit.
    apply Forall_forall. intros t Ht. apply repeat_spec in Ht. subst t.
    exists 1, r. reflexivity.
  - intros ts t n Hcat. destruct ts as [| t0 ts']; [discriminate |].
    exists t0, ts'. split; [reflexivity |]. intros Ht0.
    unfold concat in Hcat. destruct ts' as [| t1 ts'].
    + inversion Hcat. subst. assumption.
    + eapply cat_batched; [right; reflexivity | eassumption | assumption].
  - intros t t' n Hflat Ht. unfold flatten in Hflat. simpl in Hflat.
    eapply flatten1_matrix; eassumption.
  - intros pl dense t n. apply combined_matrix.
  - intros layer t t' layer' n d Hcall Ht. unfold shape in Ht. subst t.
    unfold dense_net in Hcall.
    destruct (Py.last_item (hidden_units layer)) as [h |]; [| discriminate].
    destruct (d =? inputs_dim layer); inversion Hcall.
    exists h. reflexivity.
  - intros layer t t' layer' n d Hcall Ht. unfold shape in Ht. subst t.
    unfold linear in Hcall. simpl in Hcall.
    destruct (d =? in_features layer); inversion Hcall. reflexivity.
  - intros b t t' b' Hcall. inversion Hcall. reflexivity.
  - intros i o bias layer Hnew. inversion Hnew. split; reflexivity.
  - intros layer layer' device Hto. inversion Hto. split; reflexivity.
  - intros self self' device Hto. inversion Hto. split; reflexivity.
Qed.

End ShapeLibFacts.

(** ** The theorems at work on the library of shapes *)

Module Examples.
Import ShapeLib.

#[local] Existing Instance types.
#[local] Existing Instance library.

Lemma kernel_type_is_validated_witness :
  let a := example_args true false "poly" [128; 128] Py.PyNone in
  ~ In (Args.kernel_type a) ["mat"; "vec"; "num"]
  /\ BaseModel_init (super_args a) = inr (example_base Py.PyNone)
  /\ __init__ a = inl (ValueError "kernel_type must be mat,vec or num").
Proof.
  intros a.
  assert (Hinvalid : ~ In (Args.kernel_type a) ["mat"; "vec"; "num"])
    by (simpl; intros [H | [H | [H | []]]]; discriminate).
  assert (Hsuper : BaseModel_init (super_args a)
                   = inr (example_base Py.PyNone)) by reflexivity.
  split; [exact Hinvalid |]. split; [exact Hsuper |].
  exact (proj1 (proj2 (proj1 (kernel_type_is_validated a) Hinvalid))
           (example_base Py.PyNone) Hsuper).
Defined.

(** C1 as stated does not hold for every value of the other arguments:
    the base class seeds torch with [seed] (line 35) before line 39 looks
    at the kernel type, and for the seed 2^70 that call raises
    RuntimeError.  The constructor raises it, and no ValueError, although
    the kernel type 'poly' is invalid. *)
Lemma kernel_type_unchecked_after_base_error :
  let a := SeedLib.example_args_seeded true true "poly" (2 ^ 70) in
  ~ In (Args.kernel_type a) ["mat"; "vec"; "num"]
  /\ @__init__ types SeedLib.library a
     = inl (LibraryError "RuntimeError: Overflow when unpacking long")
  /\ forall msg, @__init__ types SeedLib.library a <> inl (ValueError msg).
Proof.
  intros a.
  split; [simpl; intros [H | [H | [H | []]]]; discriminate |].
  assert (Hrun : @__init__ types SeedLib.library a
                 = inl (LibraryError
                          "RuntimeError: Overflow when unpacking long"))
    by (vm_compute; reflexivity).
  split; [exact Hrun |].
  intros msg. rewrite Hrun. discriminate.
Qed.

Lemma kernel_type_is_validated_without_outter_witness :
  let a := example_args true false "poly" [128; 128] Py.PyNone in
  Args.use_outter a = false
  /\ ~ In (Args.kernel_type a) ["mat"; "vec"; "num"]
  /\ BaseModel_init (super_args a) = inr (example_base Py.PyNone)
  /\ __init__ a = inl (ValueError "kernel_type must be mat,vec or num").
Proof.
  intros a.
  assert (Hinvalid : ~ In (Args.kernel_type a) ["mat"; "vec"; "num"])
    by (simpl; intros [H | [H | [H | []]]]; discriminate).
  assert (Hsuper : BaseModel_init (super_args a)
                   = inr (example_base Py.PyNone)) by reflexivity.
  assert (Houtter : Args.use_outter a = false) by reflexivity.
  split; [exact Houtter |]. split; [exact Hinvalid |].
  split; [exact Hsuper |].
  exact (proj1 (proj2 (proj1 (kernel_type_is_validated_without_outter a
                                Houtter) Hinvalid))
           (example_base Py.PyNone) Hsuper).
Defined.

(** C9 as stated does not hold for every constructor call: with
    [use_outter] False, the invalid kernel type 'matrix' and the seed
    -2^63 - 1, [super().__init__] raises RuntimeError while seeding torch,
    and line 39 is not reached: no ValueError is raised. *)
Lemma kernel_type_unchecked_without_outter :
  let a := SeedLib.example_args_seeded false false "matrix" (- 2 ^ 63 - 1) in
  Args.use_outter a = false
  /\ ~ In (Args.kernel_type a) ["mat"; "vec"; "num"]
  /\ @__init__ types SeedLib.library a
     = inl (LibraryError "RuntimeError: Overflow when unpacking long")
  /\ forall msg, @__init__ types SeedLib.library a <> inl (ValueError msg).
Proof.
  intros a.
  split; [reflexivity |].
  split; [simpl; intros [H | [H | [H | []]]]; discriminate |].
  assert (Hrun : @__init__ types SeedLib.library a
                 = inl (LibraryError
                          "RuntimeError: Overflow when unpacking long"))
    by (vm_compute; reflexivity).
  split; [exact Hrun |].
  intros msg. rewrite Hrun. discriminate.
Qed.

Lemma init_raises_only_library_errors_witness :
  let a := example_args true false "mat" [] Py.PyNone in
  In (Args.kernel_type a) ["mat"; "vec"; "num"]
  /\ (forall i act l2 dropout bn std device layer,
         new_DNN i [] act l2 dropout bn std device <> inr layer)
  /\ (forall b n,
         compute_input_dim b (Args.dnn_feature_columns a) false true = inr n ->
         0 <= n < 2 ^ 63)
  /\ __init__ a = inl (LibraryError "hidden_units is empty!!")
  /\ exists le, LibraryError "hidden_units is empty!!" = LibraryError le.
Proof.
  intros a.
  assert (Hvalid : In (Args.kernel_type a) ["mat"; "vec"; "num"])
    by (left; reflexivity).
  assert (Hdnn : forall i act l2 dropout bn std device layer,
             new_DNN i [] act l2 dropout bn std device <> inr layer)
    by (intros; discriminate).
  assert (Hdim : forall b n,
             compute_input_dim b (Args.dnn_feature_columns a) false true
             = inr n -> 0 <= n < 2 ^ 63).
  { intros b n Hn. inversion Hn. split; [lia | reflexivity]. }
  assert (Hrun : __init__ a = inl (LibraryError "hidden_units is empty!!"))
    by reflexivity.
  repeat (split; [assumption |]).
  exact (init_raises_only_library_errors a _ Hvalid Hdnn Hdim Hrun).
Defined.

(** C10 does not extend to every nonnegative integer: for 134217730
    feature groups the quotient 9007199456067585 is not a binary64 value,
    the division rounds it to 9007199456067584, and [int] returns that. *)
Lemma num_pairs_inexact :
  num_pairs 134217730 = inr 9007199456067584
  /\ 134217730 * (134217730 - 1) / 2 = 9007199456067585
  /\ num_pairs 134217730 <> inr (134217730 * (134217730 - 1) / 2).
Proof.
  split; [vm_compute; reflexivity |].
  split; [vm_compute; reflexivity |].
  vm_compute. intros H. discriminate.
Qed.

Lemma num_pairs_exact_witness :
  0 <= 5 <= 134217729 /\ num_pairs 5 = inr 10.
Proof.
  split; [lia |]. apply (num_pairs_exact 5). lia.
Defined.

Lemma forward_output_shape_witness :
  let a := example_args true true "vec" [128; 128] (Py.PyStr "metatrans") in
  let self := example_model true true "vec" (Py.PyStr "metatrans") in
  ShapeConventions shape in_features out_features
  /\ __init__ a = inr self
  /\ shape example_batch = 32 :: [4]
  /\ fst (forward example_batch self) = inr [32; 1]
  /\ Py.last_item (Args.dnn_hidden_units a)
     = Some (in_features (dnn_linear self))
  /\ out_features (dnn_linear self) = 1
  /\ shape [32; 1] = [32; 1].
Proof.
  intros a self.
  assert (Hinit : __init__ a = inr self) by reflexivity.
  assert (HX : shape example_batch = 32 :: [4]) by reflexivity.
  assert (Hy : fst (forward example_batch self) = inr [32; 1])
    by reflexivity.
  split; [exact ShapeLibFacts.shape_conventions |].
  repeat (split; [assumption |]).
  exact (forward_output_shape shape in_features out_features
           ShapeLibFacts.shape_conventions a self example_batch [32; 1]
           32 [4] Hinit HX Hy).
Defined.

Lemma meta_transformation_is_optional_witness :
  let self := example_model true false "mat" (Py.PyList [Py.PyStr "metatrans"]) in
  let terms := selected true false in
  input_from_feature_columns (base self) example_batch
    (dnn_feature_columns (base self)) (get_embedding_dict (base self))
  = (inr (example_sparse, example_dense), base self)
  /\ Py.contains "metatrans" (flag (base self)) = Some true
  /\ forward example_batch self
     = (embeddings <- meta_transformed example_batch example_sparse ;;
        from_embeddings terms embeddings example_dense)%st
         (set_base (base self) self).
Proof.
  intros self terms.
  assert (Hcall : input_from_feature_columns (base self) example_batch
                    (dnn_feature_columns (base self))
                    (get_embedding_dict (base self))
                  = (inr (example_sparse, example_dense), base self))
    by reflexivity.
  assert (Hflag : Py.contains "metatrans" (flag (base self)) = Some true)
    by reflexivity.
  split; [exact Hcall |]. split; [exact Hflag |].
  exact (proj1 (meta_transformation_is_optional example_batch self
                  example_sparse example_dense (base self) Hcall)
           Hflag).
Defined.

Lemma forward_leaves_model_unchanged_witness :
  let self := example_model true true "num" (Py.PyList []) in
  ReadOnlyCalls /\ snd (forward example_batch self) = self.
Proof.
  intros self. split; [exact ShapeLibFacts.read_only_calls |].
  exact (forward_leaves_model_unchanged example_batch self
           ShapeLibFacts.read_only_calls).
Defined.

Lemma forward_needs_a_container_witness :
  let self := example_model true false "mat" Py.PyNone in
  (forall b X' columns dict,
      flag (snd (input_from_feature_columns b X' columns dict)) = flag b)
  /\ flag (base self) = Py.PyNone
  /\ (forall y, fst (forward example_batch self) <> inr y)
  /\ forward example_batch self = (inl TypeError, self).
Proof.
  intros self.
  pose proof (forward_needs_a_container example_batch self
                ShapeLibFacts.lookup_keeps_flag) as [Hnone _].
  assert (Hflag : flag (base self) = Py.PyNone) by reflexivity.
  assert (Hcall : input_from_feature_columns (base self) example_batch
                    (dnn_feature_columns (base self))
                    (get_embedding_dict (base self))
                  = (inr (example_sparse, example_dense), base self))
    by reflexivity.
  destruct (Hnone Hflag) as [Hfails Herror].
  split; [exact ShapeLibFacts.lookup_keeps_flag |].
  split; [exact Hflag |]. split; [exact Hfails |].
  exact (Herror (example_sparse, example_dense) (base self) Hcall).
Defined.

End Examples.

(** * Further properties of [forward] and [__init__] *)

(** ** What [forward] itself can raise *)

Section ForwardRaises.
Context {T : Types} {L : Library}.

Lemma contains_undefined (x : string) (o : Py.pyobj) :
  Py.contains x o = None -> Py.supports_membership o = false.
Proof. destruct o; simpl; intros Hnone; try discriminate; reflexivity. Qed.

Lemma forward_raises_cases (X : tensor) (self : PNN) (e : exn) :
  fst (forward X self) = inl e ->
  (exists le, e = LibraryError le)
  \/ (e = TypeError
      /\ exists r b',
           input_from_feature_columns (base self) X
             (dnn_feature_columns (base self))
             (get_embedding_dict (base self)) = (inr r, b')
           /\ Py.supports_membership (flag b') = false)
  \/ (e = AttributeError "innerproduct"
      /\ use_inner self = true /\ innerproduct self = None)
  \/ (e = AttributeError "outterproduct"
      /\ use_outter self = true /\ outterproduct self = None).
Proof.
  destruct self as [b [|] [|] kt tk [ip |] [op |] d dl];
    unfold_calls;
    repeat match goal with
      | |- context [match ?c with _ => _ end] =>
          lazymatch c with
          | context [match _ with _ => _ end] => fail
          | _ => destruct c eqn:?
          end; unfold_calls
      end;
    cbn [fst]; intros Hrun; inversion Hrun; subst;
    try (left; eexists; reflexivity);
    try (right; left; split; [reflexivity |];
         eexists; eexists; split;
         [reflexivity | eapply contains_undefined; eassumption]);
    try (right; right; left; repeat split; reflexivity);
    try (right; right; right; repeat split; reflexivity).
Qed.

(** X1. Every exception of [forward] is an exception of the called code,
    the TypeError of the membership test on a [flag] that is no container,
    or the AttributeError for a product layer that a toggle asks for and
    the model does not have.  In particular the branches of lines 93 to 101
    never read [inner_product] or [outer_product] unassigned. *)
Theorem forward_raises (X : tensor) (self : PNN) (e : exn) :
  fst (forward X self) = inl e ->
  ((exists le, e = LibraryError le)
   \/ (e = TypeError
       /\ exists r b',
            input_from_feature_columns (base self) X
              (dnn_feature_columns (base self))
              (get_embedding_dict (base self)) = (inr r, b')
            /\ Py.supports_membership (flag b') = false)
   \/ (e = AttributeError "innerproduct"
       /\ use_inner self = true /\ innerproduct self = None)
   \/ (e = AttributeError "outterproduct"
       /\ use_outter self = true /\ outterproduct self = None))
  /\ (forall name, e <> UnboundLocalError name).
Proof.
  intros Hrun. pose proof (forward_raises_cases _ _ _ Hrun) as Hcases.
  split; [exact Hcases |].
  intros name Heq. subst e.
  destruct Hcases as [[le Hle] | [[Hty _] | [[Hat _] | [Hat _]]]];
    discriminate.
Qed.

(** X2. A model that has the layers its toggles ask for and a [flag] that
    supports membership tests delegates every failure of [forward] to the
    called code: whatever [forward] raises was raised inside a layer, the
    base class or the tensor library.  The embedding lookup is assumed not
    to reassign [self.flag]. *)
Theorem forward_raises_only_library_errors (X : tensor) (self : PNN)
  (e : exn) :
  (forall b X' columns dict,
      flag (snd (input_from_feature_columns b X' columns dict)) = flag b) ->
  Py.supports_membership (flag (base self)) = true ->
  (use_inner self = true -> innerproduct self <> None) ->
  (use_outter self = true -> outterproduct self <> None) ->
  fst (forward X self) = inl e ->
  exists le, e = LibraryError le.
Proof.
  intros Hkeeps Hflag Hinner Houtter Hrun.
  destruct (forward_raises_cases _ _ _ Hrun)
    as [Hlib | [[_ (r & b' & Hcall & Hno)] | [[_ [Hi Hnone]] | [_ [Ho Hnone]]]]].
  - exact Hlib.
  - pose proof (Hkeeps (base self) X (dnn_feature_columns (base self))
                  (get_embedding_dict (base self))) as Hsame.
    rewrite Hcall in Hsame. simpl in Hsame. congruence.
  - exfalso. exact (Hinner Hi Hnone).
  - exfalso. exact (Houtter Ho Hnone).
Qed.

(** X3. A layer whose toggle is off is not consulted: with [use_inner]
    False, [forward] returns the same prediction or raises the same
    exception whatever [self.innerproduct] holds, and leaves it in place;
    likewise for [use_outter] and [self.outterproduct]. *)
Theorem forward_ignores_unused_layers (X : tensor) (self : PNN) :
  (use_inner self = false ->
   forall layer,
     forward X (with_innerproduct layer self)
     = (fst (forward X self), with_innerproduct layer (snd (forward X self))))
  /\ (use_outter self = false ->
      forall layer,
        forward X (with_outterproduct layer self)
        = (fst (forward X self),
           with_outterproduct layer (snd (forward X self)))).
Proof.
  split; intros Hoff layer;
    destruct self as [b ui uo kt tk ip op d dl]; simpl in Hoff; subst;
    match goal with
    | |- _ = (fst ?run, _) => destruct run as [r self'] eqn:Hrun
    end;
    cbn [fst snd]; revert Hrun.
  - unfold with_innerproduct at 1.
    destruct uo; run_calls; intros Hrun; inversion Hrun; reflexivity.
  - unfold with_outterproduct at 1.
    destruct ui; run_calls; intros Hrun; inversion Hrun; reflexivity.
Qed.

End ForwardRaises.

(** ** What a constructor call that returns has done *)

Section InitReturns.
Context {T : Types} {L : Library}.

(** The steps of a constructor call that returns, one conjunct per call
    or assignment of lines 35 to 70. *)
Lemma init_returns (a : Args.t) (self : PNN) :
  __init__ a = inr self ->
  exists self0 b n pairs input_dim units linear b1,
    init_attributes a = inr self0
    /\ Module_to self0 (Args.device a) = inr self
    /\ BaseModel_init (super_args a) = inr b
    /\ In (Args.kernel_type a) kernel_types
    /\ compute_input_dim b (Args.dnn_feature_columns a) false true = inr n
    /\ num_pairs n = inr pairs
    /\ (if Args.use_inner a
        then exists layer,
            new_InnerProductLayer (Args.device a) = inr layer
            /\ innerproduct self0 = Some layer
        else innerproduct self0 = None)
    /\ (if Args.use_outter a
        then exists size layer,
            embedding_size b = inr size
            /\ new_OutterProductLayer n size (Args.kernel_type a)
                 (Args.device a) = inr layer
            /\ outterproduct self0 = Some layer
        else outterproduct self0 = None)
    /\ compute_input_dim b (Args.dnn_feature_columns a) true false
       = inr input_dim
    /\ new_DNN
         (product_out_dim (Args.use_inner a) (Args.use_outter a) pairs
          + input_dim)
         (Args.dnn_hidden_units a) (Args.dnn_activation a)
         (Args.l2_reg_dnn a) (Args.dnn_dropout a) false
         (Args.init_std a) (Args.device a) = inr (dnn self0)
    /\ Py.last_item (Args.dnn_hidden_units a) = Some units
    /\ new_Linear units 1 false = inr linear
    /\ Module_to linear (Args.device a) = inr (dnn_linear self0)
    /\ add_regularization_weight b
         (NamedParameters
            (filter is_regularized (named_parameters (dnn self0))))
         (Args.l2_reg_dnn a) = inr b1
    /\ add_regularization_weight b1
         (OneParameter (weight (dnn_linear self0))) (Args.l2_reg_dnn a)
       = inr (base self0)
    /\ use_inner self0 = Args.use_inner a
    /\ use_outter self0 = Args.use_outter a
    /\ kernel_type self0 = Args.kernel_type a
    /\ task self0 = Args.task a.
Proof.
  unfold __init__. intros Hinit.
  apply bindE_returns in Hinit. destruct Hinit as (self0 & Hattr & Hto).
  apply lib_returns in Hto.
  pose proof Hattr as Hsteps. unfold init_attributes in Hsteps.
  apply bindE_returns in Hsteps. destruct Hsteps as (b & Hb & Hsteps).
  apply bindE_returns in Hsteps. destruct Hsteps as ([] & Hvalid & Hsteps).
  apply bindE_returns in Hsteps. destruct Hsteps as (n & Hn & Hsteps).
  apply bindE_returns in Hsteps. destruct Hsteps as (pairs & Hp & Hsteps).
  apply bindE_returns in Hsteps. destruct Hsteps as (ip & Hip & Hsteps).
  apply bindE_returns in Hsteps. destruct Hsteps as (op & Hop & Hsteps).
  apply bindE_returns in Hsteps. destruct Hsteps as (d0 & Hd0 & Hsteps).
  apply bindE_returns in Hsteps. destruct Hsteps as (layer & Hdnn & Hsteps).
  apply bindE_returns in Hsteps. destruct Hsteps as (units & Hunits & Hsteps).
  apply bindE_returns in Hsteps. destruct Hsteps as (lin0 & Hlin0 & Hsteps).
  apply bindE_returns in Hsteps. destruct Hsteps as (lin & Hlin & Hsteps).
  apply bindE_returns in Hsteps. destruct Hsteps as (b1 & Hb1 & Hsteps).
  apply bindE_returns in Hsteps. destruct Hsteps as (b2 & Hb2 & Hsteps).
  inversion Hsteps. subst self0. clear Hsteps.
  apply lib_returns in Hb, Hn, Hd0, Hdnn, Hlin0, Hlin, Hb1, Hb2.
  exists {| base := b2; use_inner := Args.use_inner a;
            use_outter := Args.use_outter a;
            kernel_type := Args.kernel_type a; task := Args.task a;
            innerproduct := ip; outterproduct := op;
            dnn := layer; dnn_linear := lin |}.
  exists b, n, pairs, d0, units, lin0, b1. cbn [base use_inner use_outter
    kernel_type task innerproduct outterproduct dnn dnn_linear].
  repeat match goal with
    | |- _ /\ _ => split
    end; try assumption; try reflexivity.
  - destruct (Py.str_in_list (Args.kernel_type a) kernel_types) eqn:Hin;
      [apply PyFacts.str_in_list_In; exact Hin | discriminate].
  - destruct (Args.use_inner a).
    + apply bindE_returns in Hip. destruct Hip as (l & Hl & Hret).
      apply lib_returns in Hl. inversion Hret. eauto.
    + inversion Hip. reflexivity.
  - destruct (Args.use_outter a).
    + apply bindE_returns in Hop. destruct Hop as (size & Hsize & Hop).
      apply bindE_returns in Hop. destruct Hop as (l & Hl & Hret).
      apply lib_returns in Hsize, Hl. inversion Hret. eauto.
    + inversion Hop. reflexivity.
  - unfold last_hidden_unit in Hunits.
    destruct (Py.last_item (Args.dnn_hidden_units a)); inversion Hunits.
    reflexivity.
Qed.

End InitReturns.

Section InitProperties.
Context {T : Types} {L : Library}.

Lemma num_pairs_small_exact (n : Z) :
  0 <= n <= 134217729 -> num_pairs n = inr (n * (n - 1) / 2).
Proof.
  intros Hn.
  assert (Hcase : n = 0 \/ n = 1 \/ n = 134217729 \/ 2 <= n <= 134217728)
    by lia.
  destruct Hcase as [-> | [-> | [-> | Hmid]]];
    [vm_compute; reflexivity .. |].
  unfold num_pairs. rewrite (even_product n) at 1.
  destruct (FloatFacts.int_truediv_half (n * (n - 1) / 2)) as (x & Hx & Hint).
  - pose proof (even_product n). nia.
  - rewrite <- even_product.
    assert (134217728 * 134217728 = 2 ^ 54) by reflexivity. nia.
  - rewrite Hx. unfold retE. rewrite Hint. reflexivity.
Qed.

(** X4. What every constructed model satisfies before the closing
    [self.to(device)]: its kernel type is 'mat', 'vec' or 'num', its
    toggles, kernel type and task are the arguments, and it has an
    inner-product layer exactly when [use_inner] is true and an
    outer-product layer exactly when [use_outter] is true. *)
Theorem init_establishes_invariants (a : Args.t) (self : PNN) :
  __init__ a = inr self ->
  exists self0,
    init_attributes a = inr self0
    /\ Module_to self0 (Args.device a) = inr self
    /\ In (kernel_type self0) ["mat"; "vec"; "num"]
    /\ use_inner self0 = Args.use_inner a
    /\ use_outter self0 = Args.use_outter a
    /\ kernel_type self0 = Args.kernel_type a
    /\ task self0 = Args.task a
    /\ (innerproduct self0 <> None <-> use_inner self0 = true)
    /\ (outterproduct self0 <> None <-> use_outter self0 = true).
Proof.
  intros Hinit.
  destruct (init_returns _ _ Hinit)
    as (self0 & b & n & pairs & d0 & units & lin0 & b1 & Hattr & Hto & _
        & Hvalid & _ & _ & Hip & Hop & _ & _ & _ & _ & _ & _ & _
        & Hui & Huo & Hkt & Htask).
  exists self0.
  repeat match goal with
    | |- _ /\ _ => split
    end; try assumption.
  - rewrite Hkt. exact Hvalid.
  - rewrite Hui. destruct (Args.use_inner a).
    + destruct Hip as (layer & _ & ->). split; [reflexivity | discriminate].
    + rewrite Hip. split; [intros Hne; contradiction | discriminate].
  - rewrite Huo. destruct (Args.use_outter a).
    + destruct Hop as (size & layer & _ & _ & ->).
      split; [reflexivity | discriminate].
    + rewrite Hop. split; [intros Hne; contradiction | discriminate].
Qed.

(** X5. The widths the layers are built for.  When the constructor
    returns, the dense network was created without batch normalisation for
    inputs of [pairs * t + input_dim] columns, where [pairs] is what line
    49 computes from the number [n] of feature groups (exactly
    [n * (n - 1) / 2] up to [n = 134217729]), [t] counts the enabled
    toggles and [input_dim] is [compute_input_dim] of the columns; and the
    final layer was created as [nn.Linear(units, 1, bias=False)] for the
    last entry [units] of [dnn_hidden_units], then moved to the device. *)
Theorem init_layer_dimensions (a : Args.t) (self : PNN) :
  __init__ a = inr self ->
  exists self0 b n pairs input_dim units linear,
    init_attributes a = inr self0
    /\ BaseModel_init (super_args a) = inr b
    /\ compute_input_dim b (Args.dnn_feature_columns a) false true = inr n
    /\ num_pairs n = inr pairs
    /\ (0 <= n <= 134217729 -> pairs = n * (n - 1) / 2)
    /\ compute_input_dim b (Args.dnn_feature_columns a) true false
       = inr input_dim
    /\ new_DNN
         (pairs * (Z.b2z (Args.use_inner a) + Z.b2z (Args.use_outter a))
          + input_dim)
         (Args.dnn_hidden_units a) (Args.dnn_activation a)
         (Args.l2_reg_dnn a) (Args.dnn_dropout a) false
         (Args.init_std a) (Args.device a) = inr (dnn self0)
    /\ Py.last_item (Args.dnn_hidden_units a) = Some units
    /\ new_Linear units 1 false = inr linear
    /\ Module_to linear (Args.device a) = inr (dnn_linear self0).
Proof.
  intros Hinit.
  destruct (init_returns _ _ Hinit)
    as (self0 & b & n & pairs & d0 & units & lin0 & b1 & Hattr & _ & Hb
        & _ & Hn & Hp & _ & _ & Hd0 & Hdnn & Hunits & Hlin0 & Hlin & _).
  exists self0, b, n, pairs, d0, units, lin0.
  rewrite product_out_dim_toggles in Hdnn.
  repeat match goal with
    | |- _ /\ _ => split
    end; try assumption.
  intros Hrange. pose proof (num_pairs_small_exact n Hrange) as Hexact.
  rewrite Hexact in Hp. inversion Hp. reflexivity.
Qed.

(** X6. What the constructor registers for regularisation.  When it
    returns, the base class was handed, with [l2_reg_dnn], first the
    parameters of the dense network whose name contains 'weight' and does
    not contain 'bn', no other and each of them, and then the weight of the
    final linear layer. *)
Theorem init_regularizes_weights (a : Args.t) (self : PNN) :
  __init__ a = inr self ->
  exists self0 b b1 chosen,
    init_attributes a = inr self0
    /\ BaseModel_init (super_args a) = inr b
    /\ add_regularization_weight b (NamedParameters chosen)
         (Args.l2_reg_dnn a) = inr b1
    /\ add_regularization_weight b1
         (OneParameter (weight (dnn_linear self0))) (Args.l2_reg_dnn a)
       = inr (base self0)
    /\ (forall name p,
           In (name, p) chosen
           <-> In (name, p) (named_parameters (dnn self0))
               /\ Py.str_contains "weight" name = true
               /\ Py.str_contains "bn" name = false).
Proof.
  intros Hinit.
  destruct (init_returns _ _ Hinit)
    as (self0 & b & n & pairs & d0 & units & lin0 & b1 & Hattr & _ & Hb
        & _ & _ & _ & _ & _ & _ & _ & _ & _ & _ & Hb1 & Hb2 & _).
  exists self0, b, b1,
    (filter is_regularized (named_parameters (dnn self0))).
  repeat match goal with
    | |- _ /\ _ => split
    end; try assumption.
  intros name p. split.
  - intros Hin. apply filter_In in Hin. destruct Hin as [Hin Hreg].
    unfold is_regularized in Hreg. simpl in Hreg.
    apply andb_true_iff in Hreg. destruct Hreg as [Hw Hbn].
    apply negb_true_iff in Hbn. auto.
  - intros (Hin & Hw & Hbn). apply filter_In. split; [assumption |].
    unfold is_regularized. simpl. rewrite Hw, Hbn. reflexivity.
Qed.

(** X7. The base class comes first: when its initialisation raises, the
    constructor raises that exception and the kernel type is not looked
    at, so an invalid kernel type goes unreported. *)
Theorem init_propagates_base_error (a : Args.t) (e : lib_error) :
  BaseModel_init (super_args a) = inl e ->
  __init__ a = inl (LibraryError e).
Proof.
  intros Hbase. unfold __init__, init_attributes. rewrite Hbase. reflexivity.
Qed.

End InitProperties.

(** ** Line 49 beyond the exact range *)

Module TrueDivFacts.
Import Py.

Lemma round_half_even_bounds (n d : Z) :
  0 <= n -> 0 < d -> n / d <= round_half_even n d <= n / d + 1.
Proof.
  intros Hn Hd. unfold round_half_even.
  destruct (2 * (n mod d) <? d); [lia |].
  destruct (d <? 2 * (n mod d)); [lia |].
  destruct (Z.even (n / d)); lia.
Qed.

Lemma round_half_even_error (n d : Z) :
  0 <= n -> 0 < d -> Z.abs (2 * (round_half_even n d * d) - 2 * n) <= d.
Proof.
  intros Hn Hd. unfold round_half_even.
  pose proof (Z.div_mod n d ltac:(lia)) as Hdiv.
  pose proof (Z.mod_pos_bound n d Hd) as Hmod.
  set (q := n / d) in *. set (r := n mod d) in *.
  destruct (Z.ltb_spec (2 * r) d); [nia |].
  destruct (Z.ltb_spec d (2 * r)); [nia |].
  destruct (Z.even q); nia.
Qed.

Lemma ulp_exponent_2 (a : Z) : 2 <= a -> ulp_exponent a 2 = Z.log2 a - 53.
Proof.
  intros Ha.
  pose proof (Z.log2_spec a ltac:(lia)) as [Hlo _].
  assert (Hl1 : 1 <= Z.log2 a).
  { change 1 with (Z.log2 2). apply Z.log2_le_mono. lia. }
  unfold ulp_exponent. change (Z.log2 2) with 1.
  set (lg := Z.log2 a) in *.
  rewrite (FloatFacts.pow2_nonneg (lg - 1)) by lia.
  rewrite (FloatFacts.pow2_nonpos (- (lg - 1))) by lia.
  replace (2 * 2 ^ (lg - 1)) with (2 ^ lg).
  2:{ replace lg with (Z.succ (lg - 1)) at 1 by lia.
      rewrite Z.pow_succ_r by lia. reflexivity. }
  destruct (2 ^ lg <=? a * 1) eqn:Hle; [lia |].
  apply Z.leb_gt in Hle. lia.
Qed.

Lemma int_truediv_2 (a : Z) :
  2 <= a ->
  int_truediv a 2
  = let e := Z.log2 a - 53 in
    let m := round_half_even (a * pow2 (- e)) (2 * pow2 e) in
    if 2 ^ 1024 <=? m * pow2 e then DivOverflow
    else Quotient {| mant := m; expo := e |}.
Proof.
  intros Ha. unfold int_truediv.
  replace (2 =? 0) with false by reflexivity.
  destruct (a =? 0) eqn:Hz; [apply Z.eqb_eq in Hz; lia |].
  rewrite (Z.abs_eq a) by lia. change (Z.abs 2) with 2.
  rewrite (ulp_exponent_2 a Ha).
  rewrite (Z.sgn_pos a) by lia. change (Z.sgn 2) with 1.
  cbv zeta.
  replace (1 * 1 * round_half_even (a * pow2 (- (Z.log2 a - 53)))
                     (2 * pow2 (Z.log2 a - 53)))
    with (round_half_even (a * pow2 (- (Z.log2 a - 53)))
            (2 * pow2 (Z.log2 a - 53))) by ring.
  reflexivity.
Qed.

(** The quotient of an even integer by 2, taken through binary64, is off
    by at most one part in 2^53. *)
Lemma int_truediv_half_error (c : Z) (x : pyfloat) :
  0 <= c -> int_truediv (2 * c) 2 = Quotient x ->
  Z.abs (int_of_float x - c) * 2 ^ 53 <= c.
Proof.
  intros Hc Hdiv.
  assert (Hcase : c = 0 \/ 0 < c) by lia.
  destruct Hcase as [-> | Hpos].
  { vm_compute in Hdiv. inversion Hdiv. vm_compute. discriminate. }
  set (a := 2 * c) in *.
  assert (Ha : 2 <= a) by lia.
  rewrite (int_truediv_2 a Ha) in Hdiv. cbv zeta in Hdiv.
  pose proof (Z.log2_spec a ltac:(lia)) as [Hlo Hhi].
  assert (Hl1 : 1 <= Z.log2 a).
  { change 1 with (Z.log2 2). apply Z.log2_le_mono. lia. }
  set (lg := Z.log2 a) in *.
  remember (round_half_even (a * pow2 (- (lg - 53))) (2 * pow2 (lg - 53)))
    as m eqn:Hm.
  destruct (2 ^ 1024 <=? m * pow2 (lg - 53)) eqn:Hover; [discriminate |].
  injection Hdiv as Hx. subst x. clear Hover.
  unfold int_of_float. cbn [mant expo].
  destruct (Z.leb_spec 0 (lg - 53)) as [He | He].
  - rewrite (FloatFacts.pow2_nonpos (- (lg - 53))) in Hm by lia.
    rewrite (FloatFacts.pow2_nonneg (lg - 53)) in Hm by lia.
    rewrite Z.mul_1_r in Hm.
    set (E := 2 ^ (lg - 53)) in *.
    assert (HE : 0 < E) by (apply Z.pow_pos_nonneg; lia).
    assert (HEL : E * 2 ^ 53 = 2 ^ lg).
    { unfold E. rewrite <- Z.pow_add_r by lia. f_equal. lia. }
    pose proof (round_half_even_error a (2 * E) ltac:(lia) ltac:(lia))
      as Herr.
    rewrite <- Hm in Herr.
    assert (Hclose : Z.abs (m * E - c) * 2 <= E) by (unfold a in Herr; lia).
    assert (H53 : 2 ^ 53 = 2 * 2 ^ 52) by reflexivity.
    assert (Hc2 : E * 2 ^ 52 <= c) by (unfold a in Hlo; lia).
    lia.
  - rewrite (FloatFacts.pow2_nonneg (- (lg - 53))) in Hm by lia.
    rewrite (FloatFacts.pow2_nonpos (lg - 53)) in Hm by lia.
    set (P := 2 ^ (- (lg - 53))) in *.
    assert (HP : 0 < P) by (apply Z.pow_pos_nonneg; lia).
    replace (a * P) with ((2 * 1) * (c * P)) in Hm by (unfold a; ring).
    rewrite FloatFacts.round_half_even_exact in Hm by lia.
    subst m. rewrite Z.quot_mul by lia.
    replace (c - c) with 0 by lia. simpl. lia.
Qed.

(** Below 2^1024 the quotient by 2 is a binary64 value. *)
Lemma int_truediv_2_returns (a : Z) :
  0 <= a < 2 ^ 1024 -> exists x, int_truediv a 2 = Quotient x.
Proof.
  intros [Ha0 Ha].
  assert (Hcase : a = 0 \/ a = 1 \/ 2 <= a) by lia.
  destruct Hcase as [-> | [-> | Ha2]];
    [eexists; vm_compute; reflexivity .. |].
  rewrite (int_truediv_2 a Ha2). cbv zeta.
  pose proof (Z.log2_spec a ltac:(lia)) as [Hlo Hhi].
  assert (Hl1 : 1 <= Z.log2 a).
  { change 1 with (Z.log2 2). apply Z.log2_le_mono. lia. }
  assert (Hl2 : Z.log2 a < 1024) by (apply Z.log2_lt_pow2; lia).
  set (lg := Z.log2 a) in *.
  match goal with
  | |- context [if ?c then _ else _] => destruct c eqn:Hover
  end; [| eexists; reflexivity].
  exfalso. apply Z.leb_le in Hover.
  assert (Hbig : 2 ^ 54 < 2 ^ 1024) by (apply Z.pow_lt_mono_r; lia).
  destruct (Z.leb_spec 0 (lg - 53)) as [He | He].
  - rewrite (FloatFacts.pow2_nonpos (- (lg - 53))) in Hover by lia.
    rewrite (FloatFacts.pow2_nonneg (lg - 53)) in Hover by lia.
    rewrite Z.mul_1_r in Hover.
    set (E := 2 ^ (lg - 53)) in *.
    assert (HE : 0 < E) by (apply Z.pow_pos_nonneg; lia).
    assert (HEL : E * 2 ^ 53 = 2 ^ lg).
    { unfold E. rewrite <- Z.pow_add_r by lia. f_equal. lia. }
    assert (HEL' : 2 ^ Z.succ lg = 2 * (E * 2 ^ 53))
      by (rewrite Z.pow_succ_r by lia; lia).
    pose proof (round_half_even_bounds a (2 * E) ltac:(lia) ltac:(lia))
      as Hm.
    assert (Hq : a / (2 * E) < 2 ^ 53).
    { apply Z.div_lt_upper_bound; [lia |]. lia. }
    set (m := round_half_even a (2 * E)) in *.
    assert (Hm53 : m <= 2 ^ 53) by lia.
    assert (HmE : m * E <= 2 ^ 53 * E) by nia.
    assert (Hlg : 2 ^ lg <= 2 ^ 1023) by (apply Z.pow_le_mono_r; lia).
    assert (H1023 : 2 ^ 1023 < 2 ^ 1024) by (apply Z.pow_lt_mono_r; lia).
    lia.
  - rewrite (FloatFacts.pow2_nonneg (- (lg - 53))) in Hover by lia.
    rewrite (FloatFacts.pow2_nonpos (lg - 53)) in Hover by lia.
    set (P := 2 ^ (- (lg - 53))) in *.
    assert (HP : 0 < P) by (apply Z.pow_pos_nonneg; lia).
    assert (HPL : 2 ^ Z.succ lg * P = 2 ^ 54).
    { unfold P. rewrite <- Z.pow_add_r by lia. f_equal. lia. }
    assert (HaP : 0 <= a * P < 2 ^ 54) by nia.
    pose proof (round_half_even_bounds (a * P) (2 * 1) ltac:(lia) ltac:(lia))
      as Hm.
    assert (a * P / (2 * 1) <= a * P)
      by (apply Z.div_le_upper_bound; lia).
    lia.
Qed.

(** From 2^1025 on the quotient by 2 exceeds every binary64 value. *)
Lemma int_truediv_2_overflows (a : Z) :
  2 ^ 1025 <= a -> int_truediv a 2 = DivOverflow.
Proof.
  intros Ha.
  assert (Hpos : 0 < 2 ^ 1025) by (apply Z.pow_pos_nonneg; lia).
  rewrite (int_truediv_2 a ltac:(lia)). cbv zeta.
  pose proof (Z.log2_spec a ltac:(lia)) as [Hlo Hhi].
  assert (Hl : 1025 <= Z.log2 a) by (apply Z.log2_le_pow2; lia).
  set (lg := Z.log2 a) in *.
  rewrite (FloatFacts.pow2_nonpos (- (lg - 53))) by lia.
  rewrite (FloatFacts.pow2_nonneg (lg - 53)) by lia.
  rewrite Z.mul_1_r.
  set (E := 2 ^ (lg - 53)).
  assert (HE : 0 < E) by (apply Z.pow_pos_nonneg; lia).
  assert (HEL : E * 2 ^ 53 = 2 ^ lg).
  { unfold E. rewrite <- Z.pow_add_r by lia. f_equal. lia. }
  pose proof (round_half_even_bounds a (2 * E) ltac:(lia) ltac:(lia)) as Hm.
  assert (Hq : 2 ^ 52 <= a / (2 * E)).
  { apply Z.div_le_lower_bound; [lia |].
    assert (2 ^ 53 = 2 * 2 ^ 52) by reflexivity. lia. }
  set (m := round_half_even a (2 * E)) in *.
  assert (HmE : 2 ^ 52 * E <= m * E) by nia.
  assert (H52 : 2 ^ 52 * E = 2 ^ (lg - 1)).
  { unfold E. rewrite <- Z.pow_add_r by lia. f_equal. lia. }
  assert (Hbig : 2 ^ 1024 <= 2 ^ (lg - 1)) by (apply Z.pow_le_mono_r; lia).
  destruct (2 ^ 1024 <=? m * E) eqn:Hover; [reflexivity |].
  apply Z.leb_gt in Hover. lia.
Qed.

End TrueDivFacts.

Section NumPairs.
Context {T : Types}.

(** X8. Whatever the number of feature groups, when line 49 returns, the
    number of pairs it computes differs from the exact
    [num_inputs * (num_inputs - 1) / 2] by at most one part in 2^53 of
    it. *)
Theorem num_pairs_error (n pairs : Z) :
  num_pairs n = inr pairs ->
  Z.abs (pairs - n * (n - 1) / 2) * 2 ^ 53 <= n * (n - 1) / 2.
Proof.
  unfold num_pairs. intros Hrun.
  assert (Hc : 0 <= n * (n - 1) / 2).
  { apply Z.div_pos; [nia | lia]. }
  destruct (Py.int_truediv (n * (n - 1)) 2) as [x | |] eqn:Hdiv;
    inversion Hrun.
  rewrite (even_product n) in Hdiv.
  exact (TrueDivFacts.int_truediv_half_error _ _ Hc Hdiv).
Qed.

(** X9. Line 49 returns for every number of feature groups up to 2^512
    and raises OverflowError for every number from 2^513 on. *)
Theorem num_pairs_range (n : Z) :
  (0 <= n <= 2 ^ 512 -> exists pairs, num_pairs n = inr pairs)
  /\ (2 ^ 513 <= n -> num_pairs n = inl OverflowError).
Proof.
  split.
  - intros Hn. unfold num_pairs.
    assert (Hsq : 2 ^ 512 * 2 ^ 512 = 2 ^ 1024)
      by (rewrite <- Z.pow_add_r by lia; reflexivity).
    assert (Hpos : 0 < 2 ^ 512) by (apply Z.pow_pos_nonneg; lia).
    destruct (TrueDivFacts.int_truediv_2_returns (n * (n - 1))) as [x Hx].
    + split; [nia |].
      assert (n * (n - 1) <= 2 ^ 512 * (2 ^ 512 - 1)) by nia. lia.
    + rewrite Hx. eexists. reflexivity.
  - intros Hn. unfold num_pairs.
    assert (Hsq : 2 ^ 513 * 2 ^ 512 = 2 ^ 1025)
      by (rewrite <- Z.pow_add_r by lia; reflexivity).
    assert (Hpos : 0 < 2 ^ 512) by (apply Z.pow_pos_nonneg; lia).
    assert (H513 : 2 ^ 513 = 2 * 2 ^ 512)
      by (change 513 with (Z.succ 512); rewrite Z.pow_succ_r by lia;
          reflexivity).
    rewrite TrueDivFacts.int_truediv_2_overflows; [reflexivity |].
    assert (2 ^ 513 * (2 ^ 513 - 1) <= n * (n - 1)) by nia.
    nia.
Qed.

End NumPairs.

(** ** The membership test of line 77 *)

Module MembershipFacts.
Import Py.

Lemma substring_prefix (x post : string) :
  substring 0 (String.length x) (x ++ post) = x.
Proof.
  induction x as [| c x IH]; simpl.
  - destruct post; reflexivity.
  - rewrite IH. reflexivity.
Qed.

Lemma substring_skip (pre s : string) (k : nat) :
  substring (String.length pre) k (pre ++ s) = substring 0 k s.
Proof.
  induction pre as [| c pre IH]; simpl; [reflexivity | exact IH].
Qed.

Lemma prefix_occurs (x s : string) :
  substring 0 (String.length x) s = x -> exists post, s = (x ++ post)%string.
Proof.
  revert s. induction x as [| c x IH]; intros s Hsub.
  - exists s. reflexivity.
  - destruct s as [| c' s]; simpl in Hsub; [discriminate |].
    injection Hsub as -> Hrest.
    destruct (IH s Hrest) as [post ->]. exists post. reflexivity.
Qed.

Lemma substring_occurs (m : nat) (x s : string) :
  x <> EmptyString ->
  substring m (String.length x) s = x ->
  exists pre post, s = (pre ++ x ++ post)%string.
Proof.
  intros Hx. revert s. induction m as [| m IH]; intros s Hsub.
  - destruct (prefix_occurs x s Hsub) as [post ->].
    exists EmptyString, post. reflexivity.
  - destruct s as [| c s]; simpl in Hsub.
    + subst x. contradiction.
    + destruct (IH s Hsub) as (pre & post & ->).
      exists (String c pre), post. reflexivity.
Qed.

Lemma str_contains_occurs (x s : string) :
  x <> EmptyString ->
  (str_contains x s = true <-> exists pre post, s = (pre ++ x ++ post)%string).
Proof.
  intros Hx. unfold str_contains. split.
  - destruct (index 0 x s) as [m |] eqn:Hindex; [| discriminate].
    intros _. apply index_correct1 in Hindex.
    exact (substring_occurs m x s Hx Hindex).
  - intros (pre & post & ->).
    destruct (index 0 x (pre ++ x ++ post)) as [m |] eqn:Hindex;
      [reflexivity |].
    exfalso.
    apply (index_correct3 0 (String.length pre) _ _ Hindex Hx);
      [apply Nat.le_0_l |].
    rewrite substring_skip. apply substring_prefix.
Qed.

Lemma str_eq_obj_true (x : string) (o : pyobj) :
  str_eq_obj x o = true <-> o = PyStr x.
Proof.
  destruct o; simpl; split; intros Heq; try discriminate.
  - apply String.eqb_eq in Heq. subst. reflexivity.
  - injection Heq as ->. apply String.eqb_refl.
Qed.

Lemma existsb_str_eq_obj (x : string) (l : list pyobj) :
  existsb (str_eq_obj x) l = true <-> In (PyStr x) l.
Proof.
  rewrite existsb_exists. split.
  - intros (o & Hin & Heq). apply str_eq_obj_true in Heq. subst. exact Hin.
  - intros Hin. exists (PyStr x). split; [exact Hin |].
    apply str_eq_obj_true. reflexivity.
Qed.

(** X10. What ['metatrans' in self.flag] asks of the flag: of a string,
    that 'metatrans' occurs somewhere inside it; of a list or a tuple, that
    one of its elements is the string 'metatrans' itself; anything else
    has no membership test. *)
Theorem metatrans_membership (o : pyobj) :
  match o with
  | PyStr s =>
      contains "metatrans" o = Some true
      <-> exists pre post, s = (pre ++ "metatrans" ++ post)%string
  | PyList l | PyTuple l =>
      contains "metatrans" o = Some true <-> In (PyStr "metatrans") l
  | PyNone | PyBool _ | PyInt _ => contains "metatrans" o = None
  end.
Proof.
  destruct o as [| b | z | s | l | l]; try reflexivity.
  - simpl contains. split.
    + intros Hsome. injection Hsome as Hsome.
      apply str_contains_occurs in Hsome; [exact Hsome | discriminate].
    + intros Hocc. f_equal. apply str_contains_occurs; [discriminate |].
      exact Hocc.
  - simpl contains. rewrite <- existsb_str_eq_obj.
    split; [intros Hsome; injection Hsome as Hsome; exact Hsome |].
    intros Hex. f_equal. exact Hex.
  - simpl contains. rewrite <- existsb_str_eq_obj.
    split; [intros Hsome; injection Hsome as Hsome; exact Hsome |].
    intros Hex. f_equal. exact Hex.
Qed.

End MembershipFacts.

(** ** Running the constructor and [forward] in the library of shapes *)

(** Equal shapes: equal widths, position by position. *)
Ltac widths :=
  repeat match goal with
    | |- Some _ = Some _ => apply f_equal
    | |- inr _ = inr _ => apply f_equal
    | |- (_, _) = (_, _) => apply f_equal2
    | |- _ :: _ = _ :: _ => apply f_equal2
    | |- @eq Z _ _ => lia
    | |- _ => reflexivity
    end.

Module ShapeRun.
Import ShapeLib.

Lemma sum_repeat (e : Z) (k : nat) : sum (repeat e k) = e * Z.of_nat k.
Proof.
  induction k as [| k IH]; [simpl; lia |].
  change (sum (repeat e (S k))) with (e + sum (repeat e k)).
  rewrite IH. lia.
Qed.

Lemma forallb_eqb_repeat (e : Z) (k : nat) :
  forallb (Z.eqb e) (repeat e k) = true.
Proof.
  induction k as [| k IH]; simpl; [reflexivity |].
  rewrite Z.eqb_refl, IH. reflexivity.
Qed.

Lemma embeddings_repeat (n e : Z) (k : nat) :
  map (fun e0 => [n; 1; e0]) (repeat e k) = repeat [n; 1; e] k.
Proof.
  induction k as [| k IH]; simpl; [reflexivity |]. rewrite IH. reflexivity.
Qed.

(** [torch.cat] of [k] embeddings along dimension 1. *)
Lemma fold_cat_rows (n e j : Z) (k : nat) :
  fold_left (cat_step 1) (repeat [n; 1; e] k) (Some [n; j; e])
  = Some [n; j + Z.of_nat k; e].
Proof.
  revert j. induction k as [| k IH]; intros j.
  - simpl. widths.
  - cbn [repeat fold_left cat_step cat2 option_map].
    rewrite Z.eqb_refl. cbn [shape_eqb]. rewrite Z.eqb_refl.
    cbn [andb option_map]. rewrite IH. widths.
Qed.

Lemma cat_rows (n e : Z) (k : nat) :
  cat (repeat [n; 1; e] (S k)) 1 = inr [n; Z.of_nat (S k); e].
Proof.
  unfold cat. cbn [repeat].
  change (normalize 1 (List.length [n; 1; e])) with (Some 1%nat).
  cbv beta iota.
  rewrite fold_cat_rows. widths.
Qed.

Lemma split_rows (n e : Z) (k : nat) :
  split1 [n; Z.of_nat (S k); e] 1 1 = inr (repeat [n; 1; e] (S k)).
Proof.
  unfold split1. cbn [andb Z.eqb Pos.eqb]. rewrite Nat2Z.id. reflexivity.
Qed.

(** [concat_fun] of [k] embeddings: along the last dimension. *)
Lemma fold_cat_last (n e j : Z) (k : nat) :
  fold_left (cat_step 2) (repeat [n; 1; e] k) (Some [n; 1; j])
  = Some [n; 1; j + e * Z.of_nat k].
Proof.
  revert j. induction k as [| k IH]; intros j.
  - simpl. widths.
  - cbn [repeat fold_left cat_step cat2 option_map].
    rewrite Z.eqb_refl. cbn [Z.eqb Pos.eqb shape_eqb option_map].
    rewrite IH. widths.
Qed.

Lemma concat_embeddings (n e : Z) (k : nat) :
  concat (repeat [n; 1; e] (S k)) = inr [n; 1; e * Z.of_nat (S k)].
Proof.
  destruct k as [| k].
  - simpl. widths.
  - unfold concat, cat. cbn [repeat].
    change (normalize (-1) (List.length [n; 1; e])) with (Some 2%nat).
    cbv beta iota.
    change (fold_left (cat_step 2) ([n; 1; e] :: repeat [n; 1; e] k)
              (Some [n; 1; e]))
      with (fold_left (cat_step 2) (repeat [n; 1; e] (S k)) (Some [n; 1; e])).
    rewrite fold_cat_last. widths.
Qed.

Lemma flatten_signal (n w : Z) : flatten [n; 1; w] 1 = inr [n; w].
Proof.
  unfold flatten, flatten1. cbn [Z.eqb Pos.eqb fold_right].
  widths.
Qed.

Lemma flatten_pairs (n w : Z) : flatten [n; w; 1] 1 = inr [n; w].
Proof.
  unfold flatten, flatten1. cbn [Z.eqb Pos.eqb fold_right].
  widths.
Qed.

(** The pairs of a list. *)
Lemma pairs_of_In {A} (l : list A) (x y : A) :
  In (x, y) (pairs_of l) -> In x l /\ In y l.
Proof.
  induction l as [| z l IH]; cbn [pairs_of]; [contradiction |].
  intros Hin. apply in_app_or in Hin. destruct Hin as [Hin | Hin].
  - apply in_map_iff in Hin. destruct Hin as (y' & Heq & Hy').
    inversion Heq. subst. split; [left; reflexivity | right; assumption].
  - destruct (IH Hin) as [Hx Hy]. split; right; assumption.
Qed.

Lemma pairs_step (k : Z) : 0 <= k -> pairs (k + 1) = k + pairs k.
Proof.
  intros Hk. unfold pairs.
  pose proof (even_product k) as Hk2.
  pose proof (even_product (k + 1)) as Hk1.
  lia.
Qed.

Lemma pairs_of_length {A} (l : list A) :
  Z.of_nat (List.length (pairs_of l)) = pairs (Z.of_nat (List.length l)).
Proof.
  induction l as [| x l IH]; [reflexivity |].
  cbn [pairs_of]. rewrite length_app, length_map, Nat2Z.inj_add, IH.
  change (List.length (x :: l)) with (S (List.length l)).
  rewrite Nat2Z.inj_succ, <- Z.add_1_r, pairs_step; lia.
Qed.

Lemma pairs_of_repeat {A} (x : A) (k : nat) :
  exists m,
    map fst (pairs_of (repeat x (S (S k)))) = repeat x (S m)
    /\ map snd (pairs_of (repeat x (S (S k)))) = repeat x (S m)
    /\ Z.of_nat (S m) = pairs (Z.of_nat (S (S k))).
Proof.
  assert (Hall : forall p, In p (pairs_of (repeat x (S (S k)))) -> p = (x, x)).
  { intros [y z] Hin. apply pairs_of_In in Hin. destruct Hin as [Hy Hz].
    apply repeat_spec in Hy, Hz. subst. reflexivity. }
  pose proof (pairs_of_length (repeat x (S (S k)))) as Hlen.
  rewrite repeat_length in Hlen.
  destruct (List.length (pairs_of (repeat x (S (S k))))) as [| m] eqn:Hm.
  { exfalso. rewrite !Nat2Z.inj_succ, <- !Z.add_1_r in Hlen.
    rewrite pairs_step in Hlen by lia.
    assert (0 <= pairs (Z.of_nat k + 1))
      by (unfold pairs; apply Z.div_pos; nia).
    change (Z.of_nat 0) with 0 in Hlen. lia. }
  exists m. split; [| split; [| exact Hlen]].
  - rewrite <- Hm, <- (length_map fst). apply Forall_eq_repeat.
    apply Forall_forall. intros y Hy. apply in_map_iff in Hy.
    destruct Hy as (p & <- & Hp). rewrite (Hall p Hp). reflexivity.
  - rewrite <- Hm, <- (length_map snd). apply Forall_eq_repeat.
    apply Forall_forall. intros y Hy. apply in_map_iff in Hy.
    destruct Hy as (p & <- & Hp). rewrite (Hall p Hp). reflexivity.
Qed.

Lemma kernel_pairs_exact (n : Z) :
  0 <= n <= 134217729 -> kernel_pairs n = pairs n.
Proof.
  intros Hn. pose proof (num_pairs_small_exact (T := types) n Hn) as Hexact.
  unfold num_pairs in Hexact. unfold kernel_pairs, pairs.
  destruct (Py.int_truediv (n * (n - 1)) 2); inversion Hexact.
  reflexivity.
Qed.

(** Broadcasting. *)
Lemma broadcast_dim_refl (x : Z) : broadcast_dim x x = Some x.
Proof. unfold broadcast_dim. rewrite Z.eqb_refl. reflexivity. Qed.

Lemma broadcast_dim_1_l (x : Z) : broadcast_dim 1 x = Some x.
Proof.
  unfold broadcast_dim. destruct (1 =? x) eqn:Hx.
  - apply Z.eqb_eq in Hx. subst. reflexivity.
  - reflexivity.
Qed.

Lemma broadcast_dim_1_r (x : Z) : broadcast_dim x 1 = Some x.
Proof.
  unfold broadcast_dim. destruct (x =? 1) eqn:Hx; reflexivity.
Qed.

Lemma broadcast_rev_refl (r : list Z) : broadcast_rev r r = Some r.
Proof.
  induction r as [| x r IH]; [reflexivity |].
  cbn [broadcast_rev]. rewrite broadcast_dim_refl, IH. reflexivity.
Qed.

Lemma broadcast_refl (s : list Z) : broadcast s s = inr s.
Proof.
  unfold broadcast. rewrite broadcast_rev_refl, rev_involutive. reflexivity.
Qed.

Lemma broadcast_mat (n p e : Z) :
  broadcast [n; 1; p; e] [e; p; e] = inr [n; e; p; e].
Proof.
  unfold broadcast. cbn [rev app broadcast_rev].
  rewrite !broadcast_dim_refl, broadcast_dim_1_l. reflexivity.
Qed.

Lemma broadcast_vec (n p e : Z) :
  broadcast [n; p; e] [1; p; e] = inr [n; p; e].
Proof.
  unfold broadcast. cbn [rev app broadcast_rev].
  rewrite !broadcast_dim_refl, broadcast_dim_1_r. reflexivity.
Qed.

Lemma broadcast_num (n p e : Z) :
  broadcast [n; p; e] [1; p; 1] = inr [n; p; e].
Proof.
  unfold broadcast. cbn [rev app broadcast_rev].
  rewrite broadcast_dim_refl, !broadcast_dim_1_r. reflexivity.
Qed.

(** The inner products of at least two embeddings: one number per pair. *)
Lemma inner_embeddings (n e : Z) (k : nat) :
  inner tt (repeat [n; 1; e] (S (S k)))
  = (inr [n; pairs (Z.of_nat (S (S k))); 1], tt).
Proof.
  unfold inner, inner_product.
  destruct (pairs_of_repeat [n; 1; e] k) as (m & -> & -> & <-).
  rewrite cat_rows. cbn [then_shape]. rewrite broadcast_refl.
  reflexivity.
Qed.

(** A single embedding has no pair: [torch.cat] is given an empty list. *)
Lemma inner_one_embedding (t : list Z) :
  inner tt [t] = (inl "expected a non-empty list of Tensors", tt).
Proof. reflexivity. Qed.

(** The outer products of at least two embeddings, for each kernel. *)
Lemma outter_embeddings (n e : Z) (k : nat) (kernel : string) :
  In kernel ["mat"; "vec"; "num"] ->
  Z.of_nat (S (S k)) <= 134217729 ->
  outter {| num_inputs := Z.of_nat (S (S k)); embed_size := e;
            kernel := kernel |}
    (repeat [n; 1; e] (S (S k)))
  = (inr [n; pairs (Z.of_nat (S (S k)))],
     {| num_inputs := Z.of_nat (S (S k)); embed_size := e;
        kernel := kernel |}).
Proof.
  intros Hkernel Hmany. unfold outter, outter_product, kernel_shape.
  cbn [ShapeLib.kernel num_inputs embed_size].
  rewrite kernel_pairs_exact by lia.
  destruct (pairs_of_repeat [n; 1; e] k) as (m & -> & -> & <-).
  rewrite cat_rows. cbn [then_shape].
  destruct Hkernel as [<- | [<- | [<- | []]]].
  - rewrite String.eqb_refl. cbn [unsqueeze1 then_shape].
    rewrite broadcast_mat. cbn [then_shape removelast transpose21].
    rewrite broadcast_refl. reflexivity.
  - change (("vec" =? "mat")%string) with false.
    rewrite String.eqb_refl. cbv iota. cbn [then_shape].
    rewrite broadcast_refl. cbn [then_shape].
    rewrite broadcast_vec. reflexivity.
  - change (("num" =? "mat")%string) with false.
    change (("num" =? "vec")%string) with false.
    rewrite String.eqb_refl. cbv iota. cbn [then_shape].
    rewrite broadcast_refl. cbn [then_shape].
    rewrite broadcast_num. reflexivity.
Qed.

Lemma outter_one_embedding (layer : outter_layer) (t : list Z) :
  outter layer [t] = (inl "expected a non-empty list of Tensors", layer).
Proof. reflexivity. Qed.

Lemma cat_two (n a b : Z) : cat [[n; a]; [n; b]] 1 = inr [n; a + b].
Proof.
  unfold cat.
  change (normalize 1 (List.length [n; a])) with (Some 1%nat).
  cbv beta iota.
  cbn [fold_left cat_step cat2 option_map]. rewrite Z.eqb_refl.
  reflexivity.
Qed.

Lemma cat_three (n a b c : Z) :
  cat [[n; a]; [n; b]; [n; c]] 1 = inr [n; a + b + c].
Proof.
  unfold cat.
  change (normalize 1 (List.length [n; a])) with (Some 1%nat).
  cbv beta iota.
  cbn [fold_left cat_step cat2 option_map]. rewrite Z.eqb_refl.
  cbn [shape_eqb option_map cat_step cat2]. rewrite Z.eqb_refl.
  reflexivity.
Qed.

(** The dense values joined along the last dimension. *)
Lemma fold_cat_dense (n s : Z) (dims : list Z) :
  fold_left (cat_step 1) (map (fun d => [n; d]) dims) (Some [n; s])
  = Some [n; s + sum dims].
Proof.
  revert s. induction dims as [| d dims IH]; intros s.
  - simpl. widths.
  - cbn [map fold_left cat_step cat2 option_map]. rewrite Z.eqb_refl.
    cbn [shape_eqb option_map]. rewrite IH.
    change (sum (d :: dims)) with (d + sum dims). widths.
Qed.

Lemma combined_widths (n w : Z) (dims : list Z) :
  combined [[n; w]] (map (fun d => [n; d]) dims) = inr [n; w + sum dims].
Proof.
  assert (Hleft : flat_cat [[n; w]] = inr [n; w]).
  { unfold flat_cat, cat.
    change (normalize (-1) (List.length [n; w])) with (Some 1%nat).
    cbv beta iota.
    cbn [fold_left flatten1 fold_right]. widths. }
  unfold combined. rewrite Hleft.
  destruct dims as [| d dims].
  - simpl. widths.
  - cbn [map].
    assert (Hright : flat_cat ([n; d] :: map (fun d0 => [n; d0]) dims)
                     = inr [n; sum (d :: dims)]).
    { unfold flat_cat, cat.
      change (normalize (-1) (List.length [n; d])) with (Some 1%nat).
      cbv beta iota.
      rewrite fold_cat_dense. cbn [flatten1 fold_right].
      change (sum (d :: dims)) with (d + sum dims). widths. }
    rewrite Hright. unfold concat, cat.
    change (normalize (-1) (List.length [n; w])) with (Some 1%nat).
    cbv beta iota.
    cbn [fold_left cat_step cat2 option_map]. rewrite Z.eqb_refl.
    reflexivity.
Qed.

Lemma last_item_nonempty {A} (l : list A) :
  l <> [] -> exists x, Py.last_item l = Some x.
Proof.
  induction l as [| x l IH]; intros Hne; [contradiction |].
  destruct l as [| y l]; [exists x; reflexivity |].
  destruct IH as [z Hz]; [discriminate |]. exists z. exact Hz.
Qed.

Lemma slice_inside (width start d : Z) :
  0 <= start -> 0 <= d -> start + d <= width ->
  slice_length width start (start + d) = d.
Proof. intros Hstart Hd Hend. unfold slice_length. lia. Qed.

(** A batch at least as wide as the features: every slice is whole. *)
Lemma lookup_from_whole (n width : Z) (columns : list column) :
  Forall (fun d => 0 <= d) (dense_dims columns) ->
  forall start,
    0 <= start ->
    start + Z.of_nat (List.length (sparse_dims columns))
    + sum (dense_dims columns) <= width ->
    lookup_from n width [] start columns
    = (map (fun e => [n; 1; e]) (sparse_dims columns),
       map (fun d => [n; d]) (dense_dims columns)).
Proof.
  induction columns as [| [e | d] columns' IH]; intros Hdense start Hstart Hfit.
  - reflexivity.
  - change (sparse_dims (SparseFeat e :: columns'))
      with (e :: sparse_dims columns') in *.
    change (dense_dims (SparseFeat e :: columns'))
      with (dense_dims columns') in *.
    assert (Hsum : 0 <= sum (dense_dims columns')).
    { clear - Hdense. induction Hdense as [| x l Hx _ IHl]; [simpl; lia |].
      change (sum (x :: l)) with (x + sum l). lia. }
    cbn [List.length] in Hfit. rewrite Nat2Z.inj_succ in Hfit.
    cbn [lookup_from]. rewrite (IH Hdense (start + 1)) by lia.
    rewrite (slice_inside width start 1) by lia. reflexivity.
  - change (sparse_dims (DenseFeat d :: columns'))
      with (sparse_dims columns') in *.
    change (dense_dims (DenseFeat d :: columns'))
      with (d :: dense_dims columns') in *.
    inversion Hdense as [| x l Hd Hdense' Heq]. subst.
    assert (Hsum : 0 <= sum (dense_dims columns')).
    { clear - Hdense'. induction Hdense' as [| x l Hx _ IHl]; [simpl; lia |].
      change (sum (x :: l)) with (x + sum l). lia. }
    change (sum (d :: dense_dims columns'))
      with (d + sum (dense_dims columns')) in Hfit.
    cbn [lookup_from]. rewrite (IH Hdense' (start + d)) by lia.
    rewrite (slice_inside width start d) by lia. reflexivity.
Qed.

Lemma lookup_columns (b : base_model) (n e width : Z) (k : nat)
  (columns : list column) :
  sparse_dims columns = repeat e (S k) ->
  Forall (fun d => 0 <= d) (dense_dims columns) ->
  Z.of_nat (S k) + sum (dense_dims columns) <= width ->
  lookup b [n; width] columns tt
  = (inr (repeat [n; 1; e] (S k), map (fun d => [n; d]) (dense_dims columns)),
     b).
Proof.
  intros Hsparse Hdense Hfit. unfold lookup.
  destruct columns as [| c columns']; [discriminate |].
  rewrite lookup_from_whole.
  - rewrite Hsparse, embeddings_repeat. reflexivity.
  - exact Hdense.
  - lia.
  - rewrite Hsparse, repeat_length. lia.
Qed.

Lemma dense_net_widths (n w w0 h : Z) (hidden : list Z) :
  w = w0 -> Py.last_item hidden = Some h ->
  dense_net {| inputs_dim := w0; hidden_units := hidden |} [n; w]
  = (inr [n; h], {| inputs_dim := w0; hidden_units := hidden |}).
Proof.
  intros -> Hlast. unfold dense_net. cbn [hidden_units inputs_dim].
  rewrite Hlast, Z.eqb_refl. reflexivity.
Qed.

Lemma linear_logit (n h : Z) :
  linear {| in_features := h; out_features := 1 |} [n; h]
  = (inr [n; 1], {| in_features := h; out_features := 1 |}).
Proof.
  unfold linear. cbn [rev app in_features out_features].
  rewrite Z.eqb_refl. reflexivity.
Qed.

End ShapeRun.

Module EndToEnd.
Import ShapeLib.

#[local] Existing Instance types.
#[local] Existing Instance library.

(** Unfolds the monads and the calls into the library of shapes. *)
Ltac run_library :=
  cbv beta iota zeta delta
    [bindE lib retE bind ret raise attr torch self_method set_base
     self_innerproduct self_outterproduct self_dnn self_dnn_linear
     py_in local
     BaseModel_init flag dnn_feature_columns get_embedding_dict
     embedding_size compute_input_dim add_regularization_weight
     input_from_feature_columns meta_transformation out
     new_InnerProductLayer call_InnerProductLayer new_OutterProductLayer
     call_OutterProductLayer new_DNN call_DNN named_parameters concat_fun
     combined_dnn_input new_Linear call_Linear weight Module_to torch_cat
     torch_flatten split library
     init input_dim regularize
     b_flag b_columns b_regularization
     base use_inner use_outter kernel_type task innerproduct outterproduct
     dnn dnn_linear
     super_args BaseArgs.flag BaseArgs.dnn_feature_columns fst snd].

(** The constructor on columns whose sparse features share one embedding
    dimension. *)
Lemma init_builds (a : Args.t) (e : Z) (k : nat) :
  In (Args.kernel_type a) ["mat"; "vec"; "num"] ->
  Args.dnn_hidden_units a <> [] ->
  sparse_dims (Args.dnn_feature_columns a) = repeat e (S k) ->
  Z.of_nat (S k) <= 134217729 ->
  exists h,
    Py.last_item (Args.dnn_hidden_units a) = Some h
    /\ __init__ a
       = inr {| base :=
                  {| b_flag := Args.flag a;
                     b_columns := Args.dnn_feature_columns a;
                     b_regularization :=
                       [map fst
                          (filter is_regularized
                             (layer_parameters
                                {| inputs_dim :=
                                     product_out_dim (Args.use_inner a)
                                       (Args.use_outter a)
                                       (pairs (Z.of_nat (S k)))
                                     + (sum (repeat e (S k))
                                        + sum (dense_dims
                                                 (Args.dnn_feature_columns a)));
                                   hidden_units := Args.dnn_hidden_units a |}));
                        ["dnn_linear.weight"]] |};
                use_inner := Args.use_inner a;
                use_outter := Args.use_outter a;
                kernel_type := Args.kernel_type a;
                task := Args.task a;
                innerproduct := if Args.use_inner a then Some tt else None;
                outterproduct :=
                  if Args.use_outter a
                  then Some {| num_inputs := Z.of_nat (S k); embed_size := e;
                               kernel := Args.kernel_type a |}
                  else None;
                dnn :=
                  {| inputs_dim :=
                       product_out_dim (Args.use_inner a) (Args.use_outter a)
                         (pairs (Z.of_nat (S k)))
                       + (sum (repeat e (S k))
                          + sum (dense_dims (Args.dnn_feature_columns a)));
                     hidden_units := Args.dnn_hidden_units a |};
                dnn_linear := {| in_features := h; out_features := 1 |} |}.
Proof.
  intros Hvalid Hhidden Hsparse Hmany.
  apply PyFacts.str_in_list_In in Hvalid.
  destruct (ShapeRun.last_item_nonempty _ Hhidden) as [h Hh].
  exists h. split; [exact Hh |].
  assert (Hpairs : num_pairs (Z.of_nat (S k) + 0)
                   = inr (pairs (Z.of_nat (S k)))).
  { rewrite Z.add_0_r. apply num_pairs_small_exact. lia. }
  assert (Hsize : common_embedding_size
                    {| b_flag := Args.flag a;
                       b_columns := Args.dnn_feature_columns a;
                       b_regularization := [] |} = inr e).
  { unfold common_embedding_size. cbn [b_columns]. rewrite Hsparse.
    cbn [repeat]. rewrite ShapeRun.forallb_eqb_repeat. reflexivity. }
  assert (Hdnn : forall w,
             new_dnn w (Args.dnn_hidden_units a) (Args.dnn_activation a)
               (Args.l2_reg_dnn a) (Args.dnn_dropout a) false
               (Args.init_std a) (Args.device a)
             = inr {| inputs_dim := w;
                      hidden_units := Args.dnn_hidden_units a |}).
  { intros w. unfold new_dnn.
    destruct (Args.dnn_hidden_units a); [contradiction | reflexivity]. }
  assert (Hunits : last_hidden_unit (Args.dnn_hidden_units a) = inr h).
  { unfold last_hidden_unit. rewrite Hh. reflexivity. }
  unfold __init__, init_attributes, kernel_types.
  run_library.
  rewrite Hvalid. cbn [negb]. run_library.
  rewrite Hsparse, repeat_length, Hpairs. run_library.
  rewrite Z.add_0_r.
  destruct (Args.use_inner a), (Args.use_outter a);
    run_library; rewrite ?Hsize; run_library; rewrite Hdnn; run_library;
    rewrite Hunits; run_library; reflexivity.
Qed.

(** X11. The widths agree.  In the library of shapes, take feature
    columns whose sparse features share one embedding dimension (at least
    one feature, at most 134217729), dense features of positive dimension,
    a valid kernel type, positive hidden units, a [flag] that supports
    membership tests, and the other arguments of [example_args].  The
    constructor returns a model.  On every batch of [n] rows wide enough
    for the features, [forward] returns [n] rows and one column, for each
    setting of the toggles and with or without the meta-transformation:
    the input width that lines 47 to 60 give the dense network is the
    width that lines 83 to 103 concatenate.  The one exception is a
    product layer over a single sparse feature: there is no pair to
    multiply, and [forward] raises the exception of [torch.cat] on an
    empty list. *)
Theorem built_model_predicts (columns : list column) (hidden : list Z)
  (use_inner use_outter : bool) (kernel_type : string) (flag : Py.pyobj)
  (e : Z) (k : nat) :
  In kernel_type ["mat"; "vec"; "num"] ->
  hidden <> [] ->
  Forall (fun h => 0 < h) hidden ->
  sparse_dims columns = repeat e (S k) ->
  0 < e ->
  Forall (fun d => 0 < d) (dense_dims columns) ->
  Z.of_nat (S k) <= 134217729 ->
  Py.supports_membership flag = true ->
  exists self,
    __init__ (args_for columns hidden use_inner use_outter kernel_type flag)
    = inr self
    /\ forall n width,
         0 <= n ->
         Z.of_nat (S k) + sum (dense_dims columns) <= width ->
         fst (forward [n; width] self)
         = if (use_inner || use_outter) && (k =? 0)%nat
           then inl (LibraryError "expected a non-empty list of Tensors")
           else inr [n; 1].
Proof.
  intros Hvalid Hhidden _ Hsparse _ Hpositive Hmany Hflag.
  assert (Hdense : Forall (fun d => 0 <= d) (dense_dims columns)).
  { eapply Forall_impl; [| exact Hpositive]. intros d Hd. cbv beta in Hd.
    lia. }
  destruct (init_builds
              (args_for columns hidden use_inner use_outter kernel_type flag)
              e k Hvalid Hhidden Hsparse Hmany) as (h & Hh & Hinit).
  eexists. split; [exact Hinit |].
  cbn [args_for Args.use_inner Args.use_outter Args.kernel_type Args.flag
       Args.dnn_feature_columns Args.dnn_hidden_units Args.task] in *.
  clear Hinit. intros n width _ Hfit.
  unfold forward; run_library.
  rewrite (ShapeRun.lookup_columns _ n e width k _ Hsparse Hdense Hfit).
  run_library.
  destruct (Py.contains "metatrans" flag) as [[|] |] eqn:Hin;
    [ | | apply contains_undefined in Hin; congruence ]; run_library.
  all: rewrite ?ShapeRun.cat_rows; run_library;
    rewrite ?ShapeRun.split_rows; run_library;
    rewrite ShapeRun.concat_embeddings; run_library;
    rewrite ShapeRun.flatten_signal; run_library.
  all: destruct use_inner, use_outter; cbn [orb andb]; run_library.
  all: destruct k as [| k']; cbn [Nat.eqb].
  all: try (cbn [repeat]; rewrite ?ShapeRun.inner_one_embedding,
              ?ShapeRun.outter_one_embedding; reflexivity).
  all: rewrite ?ShapeRun.inner_embeddings; run_library;
    rewrite ?ShapeRun.flatten_pairs; run_library;
    rewrite ?ShapeRun.outter_embeddings by (exact Hvalid || exact Hmany);
    run_library;
    rewrite ?ShapeRun.cat_three, ?ShapeRun.cat_two; run_library;
    rewrite ShapeRun.combined_widths; run_library;
    (rewrite ShapeRun.dense_net_widths with (h := h);
     [ | unfold product_out_dim; rewrite ShapeRun.sum_repeat; lia
       | exact Hh ]);
    run_library; rewrite ShapeRun.linear_logit; reflexivity.
Qed.

End EndToEnd.

(** ** The further properties at work on the library of shapes *)

Module MoreExamples.
Import ShapeLib.

#[local] Existing Instance types.
#[local] Existing Instance library.

Lemma forward_raises_witness :
  let self :=
    with_innerproduct None (example_model true false "mat" (Py.PyList [])) in
  fst (forward example_batch self) = inl (AttributeError "innerproduct")
  /\ use_inner self = true
  /\ innerproduct self = None
  /\ forall name, AttributeError "innerproduct" <> UnboundLocalError name.
Proof.
  intros self.
  assert (Hrun : fst (forward example_batch self)
                 = inl (AttributeError "innerproduct")) by reflexivity.
  split; [exact Hrun |]. split; [reflexivity |]. split; [reflexivity |].
  exact (proj2 (forward_raises example_batch self _ Hrun)).
Defined.

Lemma forward_raises_only_library_errors_witness :
  let self := example_model true false "mat" (Py.PyList []) in
  (forall b X' columns dict,
      flag (snd (input_from_feature_columns b X' columns dict)) = flag b)
  /\ Py.supports_membership (flag (base self)) = true
  /\ (use_inner self = true -> innerproduct self <> None)
  /\ (use_outter self = true -> outterproduct self <> None)
  /\ fst (forward [32] self)
     = inl (LibraryError "too many indices for tensor")
  /\ exists le,
       LibraryError "too many indices for tensor" = LibraryError le.
Proof.
  intros self.
  assert (Hflag : Py.supports_membership (flag (base self)) = true)
    by reflexivity.
  assert (Hinner : use_inner self = true -> innerproduct self <> None)
    by (intros _; discriminate).
  assert (Houtter : use_outter self = true -> outterproduct self <> None)
    by (intros Hon; discriminate).
  assert (Hrun : fst (forward [32] self)
                 = inl (LibraryError "too many indices for tensor"))
    by reflexivity.
  split; [exact ShapeLibFacts.lookup_keeps_flag |].
  repeat (split; [assumption |]).
  exact (forward_raises_only_library_errors [32] self _
           ShapeLibFacts.lookup_keeps_flag Hflag Hinner Houtter Hrun).
Defined.

Lemma forward_ignores_unused_layers_witness :
  let self := example_model false false "mat" (Py.PyList []) in
  use_inner self = false
  /\ use_outter self = false
  /\ forward example_batch (with_innerproduct (Some tt) self)
     = (inr [32; 1], with_innerproduct (Some tt) self)
  /\ forward example_batch
       (with_outterproduct
          (Some {| num_inputs := 3; embed_size := 4; kernel := "mat" |}) self)
     = (inr [32; 1],
        with_outterproduct
          (Some {| num_inputs := 3; embed_size := 4; kernel := "mat" |}) self).
Proof.
  intros self.
  assert (Hinner : use_inner self = false) by reflexivity.
  assert (Houtter : use_outter self = false) by reflexivity.
  split; [exact Hinner |]. split; [exact Houtter |].
  split.
  - exact (proj1 (forward_ignores_unused_layers example_batch self) Hinner
             (Some tt)).
  - exact (proj2 (forward_ignores_unused_layers example_batch self) Houtter
             (Some {| num_inputs := 3; embed_size := 4; kernel := "mat" |})).
Defined.

Lemma init_establishes_invariants_witness :
  let a := example_args true false "num" [128; 128] Py.PyNone in
  let self := example_model true false "num" Py.PyNone in
  __init__ a = inr self
  /\ exists self0,
       init_attributes a = inr self0
       /\ Module_to self0 (Args.device a) = inr self
       /\ In (kernel_type self0) ["mat"; "vec"; "num"]
       /\ use_inner self0 = Args.use_inner a
       /\ use_outter self0 = Args.use_outter a
       /\ kernel_type self0 = Args.kernel_type a
       /\ task self0 = Args.task a
       /\ (innerproduct self0 <> None <-> use_inner self0 = true)
       /\ (outterproduct self0 <> None <-> use_outter self0 = true).
Proof.
  intros a self.
  assert (Hinit : __init__ a = inr self) by reflexivity.
  split; [exact Hinit |].
  exact (init_establishes_invariants a self Hinit).
Defined.

Lemma init_layer_dimensions_witness :
  let a := example_args true true "vec" [256; 64] Py.PyNone in
  let self :=
    {| base := {| b_flag := Py.PyNone;
                  b_columns := example_columns;
                  b_regularization :=
                    [["linears.weight"; "linears.weight"];
                     ["dnn_linear.weight"]] |};
       use_inner := true; use_outter := true;
       kernel_type := "vec"; task := "binary";
       innerproduct := Some tt;
       outterproduct :=
         Some {| num_inputs := 3; embed_size := 4; kernel := "vec" |};
       dnn := {| inputs_dim := 3 * (1 + 1) + 13; hidden_units := [256; 64] |};
       dnn_linear := {| in_features := 64; out_features := 1 |} |} in
  __init__ a = inr self
  /\ exists self0 b n pairs input_dim units linear,
       init_attributes a = inr self0
       /\ BaseModel_init (super_args a) = inr b
       /\ compute_input_dim b (Args.dnn_feature_columns a) false true = inr n
       /\ num_pairs n = inr pairs
       /\ (0 <= n <= 134217729 -> pairs = n * (n - 1) / 2)
       /\ compute_input_dim b (Args.dnn_feature_columns a) true false
          = inr input_dim
       /\ new_DNN
            (pairs * (Z.b2z (Args.use_inner a) + Z.b2z (Args.use_outter a))
             + input_dim)
            (Args.dnn_hidden_units a) (Args.dnn_activation a)
            (Args.l2_reg_dnn a) (Args.dnn_dropout a) false
            (Args.init_std a) (Args.device a) = inr (dnn self0)
       /\ Py.last_item (Args.dnn_hidden_units a) = Some units
       /\ new_Linear units 1 false = inr linear
       /\ Module_to linear (Args.device a) = inr (dnn_linear self0).
Proof.
  intros a self.
  assert (Hinit : __init__ a = inr self) by reflexivity.
  split; [exact Hinit |].
  exact (init_layer_dimensions a self Hinit).
Defined.

Lemma init_regularizes_weights_witness :
  let a := example_args true false "mat" [128; 128] Py.PyNone in
  let self := example_model true false "mat" Py.PyNone in
  __init__ a = inr self
  /\ exists self0 b b1 chosen,
       init_attributes a = inr self0
       /\ BaseModel_init (super_args a) = inr b
       /\ add_regularization_weight b (NamedParameters chosen)
            (Args.l2_reg_dnn a) = inr b1
       /\ add_regularization_weight b1
            (OneParameter (weight (dnn_linear self0))) (Args.l2_reg_dnn a)
          = inr (base self0)
       /\ (forall name p,
              In (name, p) chosen
              <-> In (name, p) (named_parameters (dnn self0))
                  /\ Py.str_contains "weight" name = true
                  /\ Py.str_contains "bn" name = false).
Proof.
  intros a self.
  assert (Hinit : __init__ a = inr self) by reflexivity.
  split; [exact Hinit |].
  exact (init_regularizes_weights a self Hinit).
Defined.

Lemma init_propagates_base_error_witness :
  let a := StrictLib.example_args_for "ranking" in
  ~ In (Args.kernel_type a) ["mat"; "vec"; "num"]
  /\ @BaseModel_init types StrictLib.library (super_args a)
     = inl "task must be binary,multiclass or regression"
  /\ @__init__ types StrictLib.library a
     = inl (LibraryError "task must be binary,multiclass or regression").
Proof.
  intros a.
  assert (Hbase : @BaseModel_init types StrictLib.library (super_args a)
                  = inl "task must be binary,multiclass or regression")
    by reflexivity.
  split; [simpl; intros [H | [H | [H | []]]]; discriminate |].
  split; [exact Hbase |].
  exact (@init_propagates_base_error types StrictLib.library a _ Hbase).
Defined.

Lemma num_pairs_error_witness :
  num_pairs 134217730 = inr 9007199456067584
  /\ Z.abs (9007199456067584 - 134217730 * (134217730 - 1) / 2) * 2 ^ 53
     <= 134217730 * (134217730 - 1) / 2.
Proof.
  assert (Hrun : num_pairs 134217730 = inr 9007199456067584)
    by (vm_compute; reflexivity).
  split; [exact Hrun |].
  exact (num_pairs_error 134217730 9007199456067584 Hrun).
Defined.

Lemma num_pairs_range_witness :
  0 <= 1000 <= 2 ^ 512
  /\ (exists pairs, num_pairs 1000 = inr pairs)
  /\ 2 ^ 513 <= 2 ^ 600
  /\ num_pairs (2 ^ 600) = inl OverflowError.
Proof.
  assert (Hlow : 0 <= 1000 <= 2 ^ 512)
    by (split; [lia | apply Z.leb_le; vm_compute; reflexivity]).
  assert (Hhigh : 2 ^ 513 <= 2 ^ 600) by (apply Z.pow_le_mono_r; lia).
  split; [exact Hlow |].
  split; [exact (proj1 (num_pairs_range 1000) Hlow) |].
  split; [exact Hhigh |].
  exact (proj2 (num_pairs_range (2 ^ 600)) Hhigh).
Defined.

Lemma built_model_predicts_witness :
  let a :=
    args_for example_columns [128; 128] true true "vec"
      (Py.PyStr "metatrans") in
  In "vec" ["mat"; "vec"; "num"]
  /\ [128; 128] <> []
  /\ Forall (fun h => 0 < h) [128; 128]
  /\ sparse_dims example_columns = repeat 4 3
  /\ 0 < 4
  /\ Forall (fun d => 0 < d) (dense_dims example_columns)
  /\ Z.of_nat 3 <= 134217729
  /\ Py.supports_membership (Py.PyStr "metatrans") = true
  /\ exists self,
       __init__ a = inr self
       /\ forall n width,
            0 <= n ->
            Z.of_nat 3 + sum (dense_dims example_columns) <= width ->
            fst (forward [n; width] self) = inr [n; 1].
Proof.
  intros a.
  assert (Hvalid : In "vec" ["mat"; "vec"; "num"])
    by (right; left; reflexivity).
  assert (Hhidden : [128; 128] <> []) by discriminate.
  assert (Hunits : Forall (fun h => 0 < h) [128; 128])
    by (repeat constructor).
  assert (Hsparse : sparse_dims example_columns = repeat 4 3)
    by reflexivity.
  assert (Hsize : 0 < 4) by lia.
  assert (Hdense : Forall (fun d => 0 < d) (dense_dims example_columns))
    by (repeat constructor).
  assert (Hmany : Z.of_nat 3 <= 134217729) by (simpl; lia).
  assert (Hflag : Py.supports_membership (Py.PyStr "metatrans") = true)
    by reflexivity.
  repeat (split; [assumption |]).
  exact (EndToEnd.built_model_predicts example_columns [128; 128] true true
           "vec" (Py.PyStr "metatrans") 4 2 Hvalid Hhidden Hunits Hsparse
           Hsize Hdense Hmany Hflag).
Defined.

End MoreExamples.
